(** * NodeDssSignaler: the node-dss polling signaler of MixedReality-WebRTC

    A shallow embedding of
    [Scripts/Signaling/NodeDssSignaler.cs] and the properties of its
    polling loop, its message dispatch and its ICE payload format.

    Conventions of the embedding.
    - A C# [float] is an IEEE 754 binary32 value: [spec_float] with a
      24 bit mantissa and exponent bound 128, with the operations of
      [SpecFloat] (round to nearest even).
    - A C# [string] is a [string]; a [null] string field that the code only
      tests with [IsNullOrEmpty] or prints is the empty string.
    - A C# [int] is a [Z] in the range of [Int32].
    - A method returns the effects it performs (console lines, calls on the
      native peer, web requests sent), in order, and either a value or the
      exception that escapes it.
    - A coroutine is split at its single [yield return www.SendWebRequest()]:
      the part that runs inside [StartCoroutine], and the part that runs when
      the engine resumes it with the completed request. *)

From Stdlib Require Import ZArith List String Ascii Bool Lia.
From Stdlib Require Import SpecFloat DecimalString DecimalZ DecimalPos DecimalFacts.
Import ListNotations.

#[local] Open Scope string_scope.
#[local] Open Scope Z_scope.

(** ** Single precision floating point *)

Module Single.

Definition prec : Z := 24.
Definition emax : Z := 128.

Definition float : Type := spec_float.

(** The value [m * 2^e], rounded to binary32. *)
Definition of_Z_exp (m e : Z) : float := binary_normalize prec emax m e false.
Definition of_Z (m : Z) : float := of_Z_exp m 0.

Definition zero : float := S754_zero false.
Definition add (x y : float) : float := SFadd prec emax x y.
Definition mul (x y : float) : float := SFmul prec emax x y.
Definition leb (x y : float) : bool := SFleb x y.
Definition ltb (x y : float) : bool := SFltb x y.

End Single.

(** ** The parts of the .NET base library the signaler calls *)

Inductive Exception : Type :=
| ArgumentNullException (paramName : string)
| ArgumentException
| IndexOutOfRangeException
| FormatException
| OverflowException.

(** What running a piece of code gives: a value, or an exception that
    escapes it. *)
Inductive Completion (A : Type) : Type :=
| Returned (a : A)
| Threw (e : Exception).
Arguments Returned {A} a.
Arguments Threw {A} e.

Module DotNet.

Definition IsNullOrEmpty (s : string) : bool :=
  match s with
  | EmptyString => true
  | String _ _ => false
  end.

(** [s.EndsWith(c)] for a one character string [c]. *)
Fixpoint EndsWithChar (s : string) (c : ascii) : bool :=
  match s with
  | EmptyString => false
  | String a EmptyString => Ascii.eqb a c
  | String _ rest => EndsWithChar rest c
  end.

(** [s.Contains(sub)]: [sub] occurs at some position of [s]. *)
Fixpoint Contains (s sub : string) : bool :=
  prefix sub s ||
  match s with
  | EmptyString => false
  | String _ rest => Contains rest sub
  end.

(** The scan of [String.Split(string[] { sep }, ...)]: positions are
    visited left to right; where [sep] (non-empty) starts, the current
    piece ends and the scan jumps over the separator ([skip] counts the
    characters of it still to jump over). An empty or null separator is
    never found. The result has one piece more than separators found. *)
Fixpoint SplitPieces (sep : string) (skip : nat) (s : string) : list string :=
  match s with
  | EmptyString => [EmptyString]
  | String c rest =>
      match skip with
      | S k => SplitPieces sep k rest
      | O =>
          if negb (IsNullOrEmpty sep) && prefix sep s
          then EmptyString :: SplitPieces sep (Nat.pred (String.length sep)) rest
          else match SplitPieces sep O rest with
               | p :: ps => String c p :: ps
               | [] => [String c EmptyString]
               end
      end
  end.

(** [s.Split(new string[] { sep }, StringSplitOptions.RemoveEmptyEntries)] *)
Definition Split (s sep : string) : list string :=
  filter (fun p => negb (IsNullOrEmpty p)) (SplitPieces sep O s).

(** [parts[i]] on an array. *)
Definition Index (parts : list string) (i : nat) : Completion string :=
  match nth_error parts i with
  | Some p => Returned p
  | None => Threw IndexOutOfRangeException
  end.

Module Int32.
Definition MinValue : Z := -2147483648.
Definition MaxValue : Z := 2147483647.

Definition InRange (i : Z) : bool := (MinValue <=? i) && (i <=? MaxValue).

(** [i.ToString()], as string interpolation calls it: the decimal digits,
    after a minus sign when negative. *)
Definition ToString (i : Z) : string := NilZero.string_of_int (Z.to_int i).

(** White space as number parsing sees it: U+0009..U+000D and U+0020. *)
Definition IsWhite (c : ascii) : bool :=
  let n := nat_of_ascii c in
  (Nat.eqb n 32 || (Nat.leb 9 n && Nat.leb n 13))%bool.

Definition DigitValue (c : ascii) : option Z :=
  let n := nat_of_ascii c in
  if (Nat.leb 48 n && Nat.leb n 57)%bool then Some (Z.of_nat (n - 48)) else None.

Fixpoint SkipWhite (s : string) : string :=
  match s with
  | EmptyString => EmptyString
  | String c rest => if IsWhite c then SkipWhite rest else s
  end.

(** Reads the longest run of digits at the start of [s] onto [acc]. *)
Fixpoint ParseDigits (acc : Z) (s : string) : Z * string :=
  match s with
  | EmptyString => (acc, EmptyString)
  | String c rest =>
      match DigitValue c with
      | Some d => ParseDigits (10 * acc + d) rest
      | None => (acc, s)
      end
  end.

(** After the number only NUL characters may follow. *)
Fixpoint TrailingZeros (s : string) : bool :=
  match s with
  | EmptyString => true
  | String c rest => Ascii.eqb c Ascii.zero && TrailingZeros rest
  end.

(** [int.Parse(s)] ([NumberStyles.Integer], signs and digits of the
    invariant culture): optional leading white space, an optional sign, at
    least one digit, optional trailing white space. Anything else is a
    [FormatException]; a number outside [Int32] an [OverflowException]. *)
Definition Parse (s : string) : Completion Z :=
  let s1 := SkipWhite s in
  let '(negative, s2) :=
    match s1 with
    | String "-"%char rest => (true, rest)
    | String "+"%char rest => (false, rest)
    | _ => (false, s1)
    end in
  match s2 with
  | EmptyString => Threw FormatException
  | String c _ =>
      match DigitValue c with
      | None => Threw FormatException
      | Some _ =>
          let '(n, rest) := ParseDigits 0 s2 in
          if TrailingZeros (SkipWhite rest)
          then let v := if negative then - n else n in
               if InRange v then Returned v else Threw OverflowException
          else Threw FormatException
      end
  end.
End Int32.

End DotNet.

(** ** Messages, requests and effects *)

(** Modelled from the spec: the declarations of [SignalerMessage] and of its
    enumeration [WireMessageType] are in [Signaler.cs], which is not among
    the sources at hand. The wire object has the fields [MessageType]
    ("Offer", "Answer" or "Ice"), [Data] and [IceDataSeparator]; a kind
    that is none of the three must be representable, and is kept here with
    the number it has on the wire. *)
Inductive WireMessageType : Type :=
| Offer
| Answer
| Ice
| Unrecognized (value : Z).

Record SignalerMessage : Type := {
  MessageType : WireMessageType;
  Data : string;
  IceDataSeparator : string
}.

(** How string interpolation prints a [WireMessageType]. *)
Definition WireMessageType_ToString (t : WireMessageType) : string :=
  match t with
  | Offer => "Offer"
  | Answer => "Answer"
  | Ice => "Ice"
  | Unrecognized value => DotNet.Int32.ToString value
  end.

(** A [UnityWebRequest] once [SendWebRequest] has completed, with the
    members the signaler reads. [isHttpError] is how Unity defines it: a
    response code of 400 or more. *)
Record UnityWebRequest : Type := {
  isNetworkError : bool;
  responseCode : Z;
  error : string;
  downloadHandler_text : string
}.

Definition isHttpError (www : UnityWebRequest) : bool := 400 <=? responseCode www.

(** What the signaler does to the world around it. *)
Inductive Effect : Type :=
| DebugLog (message : string)
| DebugLogError (message : string)
| SetRemoteDescription (type sdp : string)
| CreateAnswer
| AddIceCandidate (candidate : string) (sdpMlineIndex : Z) (sdpMid : string)
| SendWebRequest (verb url : string) (uploadData : option string)
| UnhandledException (e : Exception).

Definition IsGet (e : Effect) : bool :=
  match e with
  | SendWebRequest verb _ _ => String.eqb verb "GET"
  | _ => false
  end.

Definition IsPost (e : Effect) : bool :=
  match e with
  | SendWebRequest verb _ _ => String.eqb verb "POST"
  | _ => false
  end.

(** A line on the console. *)
Definition IsDiagnostic (e : Effect) : bool :=
  match e with
  | DebugLog _ | DebugLogError _ | UnhandledException _ => true
  | _ => false
  end.

(** A call on the native peer connection. *)
Definition IsNegotiationAction (e : Effect) : bool :=
  match e with
  | SetRemoteDescription _ _ | CreateAnswer | AddIceCandidate _ _ _ => true
  | _ => false
  end.

Definition count_gets (out : list Effect) : nat := List.length (filter IsGet out).

(** Code that performs effects and may throw: the effects performed so
    far, and how it ended. *)
Definition M (A : Type) : Type := (list Effect * Completion A)%type.

Definition ret {A : Type} (a : A) : M A := ([], Returned a).

Definition bind {A B : Type} (m : M A) (k : A -> M B) : M B :=
  match m with
  | (out, Returned a) => let '(out', r) := k a in ((out ++ out')%list, r)
  | (out, Threw e) => (out, Threw e)
  end.

Definition perform (e : Effect) : M unit := ([e], Returned tt).

Definition lift {A : Type} (c : Completion A) : M A := ([], c).

Declare Scope signaler_scope.
Delimit Scope signaler_scope with signaler.
Notation "x <- m ;; k" := (bind m (fun x => k))
  (at level 61, m at next level, right associativity) : signaler_scope.
Notation "m ;; k" := (bind m (fun _ => k))
  (at level 61, right associativity) : signaler_scope.

(** [JsonUtility.ToJson] and [JsonUtility.FromJson<SignalerMessage>] of the
    engine. [FromJson] gives [null] (here [None]) or throws on text that is
    not JSON. *)
Class JsonUtility : Type := {
  ToJson : SignalerMessage -> string;
  FromJson : string -> Completion (option SignalerMessage)
}.

(** ** The signaler *)

Record NodeDssSignaler : Type := {
  AutoLogErrors : bool;
  LocalPeerId : string;
  RemotePeerId : string;
  HttpServerAddress : string;
  PollTimeMs : Single.float;
  timeSincePollMs : Single.float;
  lastGetComplete : bool
}.

Definition set_LocalPeerId (self : NodeDssSignaler) (v : string) : NodeDssSignaler :=
  {| AutoLogErrors := AutoLogErrors self; LocalPeerId := v;
     RemotePeerId := RemotePeerId self; HttpServerAddress := HttpServerAddress self;
     PollTimeMs := PollTimeMs self; timeSincePollMs := timeSincePollMs self;
     lastGetComplete := lastGetComplete self |}.

Definition set_HttpServerAddress (self : NodeDssSignaler) (v : string) : NodeDssSignaler :=
  {| AutoLogErrors := AutoLogErrors self; LocalPeerId := LocalPeerId self;
     RemotePeerId := RemotePeerId self; HttpServerAddress := v;
     PollTimeMs := PollTimeMs self; timeSincePollMs := timeSincePollMs self;
     lastGetComplete := lastGetComplete self |}.

Definition set_timeSincePollMs (self : NodeDssSignaler) (v : Single.float) : NodeDssSignaler :=
  {| AutoLogErrors := AutoLogErrors self; LocalPeerId := LocalPeerId self;
     RemotePeerId := RemotePeerId self; HttpServerAddress := HttpServerAddress self;
     PollTimeMs := PollTimeMs self; timeSincePollMs := v;
     lastGetComplete := lastGetComplete self |}.

Definition set_lastGetComplete (self : NodeDssSignaler) (v : bool) : NodeDssSignaler :=
  {| AutoLogErrors := AutoLogErrors self; LocalPeerId := LocalPeerId self;
     RemotePeerId := RemotePeerId self; HttpServerAddress := HttpServerAddress self;
     PollTimeMs := PollTimeMs self; timeSincePollMs := timeSincePollMs self;
     lastGetComplete := v |}.

(** The object as its field initialisers leave it; the public fields are
    then set from the scene. *)
Definition NewNodeDssSignaler : NodeDssSignaler :=
  {| AutoLogErrors := true; LocalPeerId := ""; RemotePeerId := "";
     HttpServerAddress := "http://127.0.0.1:3000/";
     PollTimeMs := Single.of_Z 500; timeSincePollMs := Single.zero;
     lastGetComplete := true |}.

(** [Start()]; [deviceUniqueIdentifier] is [SystemInfo.deviceUniqueIdentifier]. *)
Definition Start (self : NodeDssSignaler) (deviceUniqueIdentifier : string)
  : Completion NodeDssSignaler :=
  if DotNet.IsNullOrEmpty (HttpServerAddress self)
  then Threw (ArgumentNullException "HttpServerAddress")
  else
    let self :=
      if negb (DotNet.EndsWithChar (HttpServerAddress self) "/")
      then set_HttpServerAddress self (HttpServerAddress self ++ "/")
      else self in
    let self :=
      if DotNet.IsNullOrEmpty (LocalPeerId self)
      then set_LocalPeerId self deviceUniqueIdentifier
      else self in
    Returned self.

(** [PostToServer(msg)] up to its [yield]. *)
Definition PostToServer `{JsonUtility} (self : NodeDssSignaler) (msg : SignalerMessage)
  : list Effect :=
  let data := ToJson msg in
  [SendWebRequest "POST" (HttpServerAddress self ++ "data/" ++ RemotePeerId self) (Some data)].

(** [PostToServer] from its [yield] on, once the request [www] is done. *)
Definition PostToServer_resumed (self : NodeDssSignaler) (www : UnityWebRequest)
  : list Effect :=
  if AutoLogErrors self && (isNetworkError www || isHttpError www)
  then [DebugLog ("Failure sending message: " ++ error www)]
  else [].

(** The message [OnIceCandiateReadyToSend] builds. *)
Definition IceMessage (candidate : string) (sdpMlineIndex : Z) (sdpMid : string)
  : SignalerMessage :=
  {| MessageType := Ice;
     Data := candidate ++ "|" ++ DotNet.Int32.ToString sdpMlineIndex ++ "|" ++ sdpMid;
     IceDataSeparator := "|" |}.

Definition OnIceCandiateReadyToSend `{JsonUtility} (self : NodeDssSignaler)
    (candidate : string) (sdpMlineIndex : Z) (sdpMid : string) : list Effect :=
  PostToServer self (IceMessage candidate sdpMlineIndex sdpMid).

Definition OnSdpOfferReadyToSend `{JsonUtility} (self : NodeDssSignaler) (offer : string)
  : list Effect :=
  PostToServer self {| MessageType := Offer; Data := offer; IceDataSeparator := "" |}.

Definition OnSdpAnswerReadyToSend `{JsonUtility} (self : NodeDssSignaler) (answer : string)
  : list Effect :=
  PostToServer self {| MessageType := Answer; Data := answer; IceDataSeparator := "" |}.

(** [CO_GetAndProcessFromServer()] up to its [yield]. *)
Definition CO_GetAndProcessFromServer (self : NodeDssSignaler) : list Effect :=
  [SendWebRequest "GET" (HttpServerAddress self ++ "data/" ++ LocalPeerId self) None].

(** The [switch] on the type of a received message. *)
Definition Dispatch (msg : SignalerMessage) : M unit :=
  (match MessageType msg with
   | Offer =>
       perform (SetRemoteDescription "offer" (Data msg)) ;;
       perform CreateAnswer
   | Answer =>
       perform (SetRemoteDescription "answer" (Data msg))
   | Ice =>
       let parts := DotNet.Split (Data msg) (IceDataSeparator msg) in
       candidate <- lift (DotNet.Index parts 0) ;;
       text <- lift (DotNet.Index parts 1) ;;
       sdpMlineIndex <- lift (DotNet.Int32.Parse text) ;;
       sdpMid <- lift (DotNet.Index parts 2) ;;
       perform (AddIceCandidate candidate sdpMlineIndex sdpMid)
   | Unrecognized _ =>
       perform (DebugLog ("Unknown message: " ++ WireMessageType_ToString (MessageType msg)
                            ++ ": " ++ Data msg))
   end)%signaler.

(** [CO_GetAndProcessFromServer] from its [yield] on, once the request
    [www] is done. An exception leaves the coroutine before its last
    statement. *)
Definition CO_GetAndProcessFromServer_resumed `{JsonUtility}
    (self : NodeDssSignaler) (www : UnityWebRequest) : M NodeDssSignaler :=
  ((if negb (isNetworkError www) && negb (isHttpError www)
    then
      let json := downloadHandler_text www in
      msg <- lift (FromJson json) ;;
      match msg with
      | Some msg =>
          perform (DebugLog ("Received SDP message: type="
                               ++ WireMessageType_ToString (MessageType msg)
                               ++ " data=" ++ Data msg)) ;;
          Dispatch msg
      | None =>
          if AutoLogErrors self
          then perform (DebugLogError ("Failed to deserialize JSON message : " ++ json))
          else ret tt
      end
    else if AutoLogErrors self && isNetworkError www
    then perform (DebugLogError ("Network error trying to send data to "
                                   ++ HttpServerAddress self ++ ": " ++ error www))
    else ret tt) ;;
   ret (set_lastGetComplete self true))%signaler.

(** [Update()]; [deltaTime] is [Time.deltaTime]. [StartCoroutine] runs the
    coroutine up to its [yield] at once. *)
Definition Update (self : NodeDssSignaler) (deltaTime : Single.float)
  : NodeDssSignaler * list Effect :=
  if Single.leb (timeSincePollMs self) (PollTimeMs self)
  then
    (set_timeSincePollMs self
       (Single.add (timeSincePollMs self) (Single.mul deltaTime (Single.of_Z 1000))), [])
  else if negb (lastGetComplete self)
  then (self, [])
  else
    let self := set_timeSincePollMs self Single.zero in
    let self := set_lastGetComplete self false in
    (self, CO_GetAndProcessFromServer self).

(** The three ways through [Update]. *)
Variant UpdateCase (self : NodeDssSignaler) (deltaTime : Single.float)
  : NodeDssSignaler * list Effect -> Prop :=
| Accumulating :
    Single.leb (timeSincePollMs self) (PollTimeMs self) = true ->
    UpdateCase self deltaTime
      (set_timeSincePollMs self
         (Single.add (timeSincePollMs self) (Single.mul deltaTime (Single.of_Z 1000))), [])
| Waiting :
    Single.leb (timeSincePollMs self) (PollTimeMs self) = false ->
    lastGetComplete self = false ->
    UpdateCase self deltaTime (self, [])
| Polling :
    Single.leb (timeSincePollMs self) (PollTimeMs self) = false ->
    lastGetComplete self = true ->
    UpdateCase self deltaTime
      (set_lastGetComplete (set_timeSincePollMs self Single.zero) false,
       [SendWebRequest "GET" (HttpServerAddress self ++ "data/" ++ LocalPeerId self) None]).

(** ** A session: the signaler driven by the engine *)

(** The engine calls [Update] every frame, resumes a coroutine when its web
    request completes, and the native peer raises its three events. A
    session keeps the signaler, how many coroutines of each kind wait for
    their request, and everything done so far. *)
Record Session : Type := {
  signaler : NodeDssSignaler;
  pendingGet : nat;
  pendingPost : nat;
  console : list Effect
}.

Inductive Event : Type :=
| Tick (deltaTime : Single.float)
| GetCompleted (www : UnityWebRequest)
| PostCompleted (www : UnityWebRequest)
| IceCandidateReady (candidate : string) (sdpMlineIndex : Z) (sdpMid : string)
| SdpOfferReady (offer : string)
| SdpAnswerReady (answer : string).

Definition begin_session (self : NodeDssSignaler) : Session :=
  {| signaler := self; pendingGet := 0; pendingPost := 0; console := [] |}.

(** A publish started by an event of the native peer. *)
Definition publish (w : Session) (out : list Effect) : Session :=
  {| signaler := signaler w;
     pendingGet := pendingGet w;
     pendingPost := S (pendingPost w);
     console := (console w ++ out)%list |}.

(** One event. A completion with no coroutine waiting for it cannot happen
    and changes nothing. An exception that escapes a coroutine ends that
    coroutine; the engine prints it and goes on. *)
Definition step `{JsonUtility} (w : Session) (ev : Event) : Session :=
  match ev with
  | Tick deltaTime =>
      let '(self, out) := Update (signaler w) deltaTime in
      {| signaler := self;
         pendingGet := pendingGet w + count_gets out;
         pendingPost := pendingPost w;
         console := (console w ++ out)%list |}
  | GetCompleted www =>
      match pendingGet w with
      | O => w
      | S n =>
          match CO_GetAndProcessFromServer_resumed (signaler w) www with
          | (out, Returned self) =>
              {| signaler := self; pendingGet := n; pendingPost := pendingPost w;
                 console := (console w ++ out)%list |}
          | (out, Threw e) =>
              {| signaler := signaler w; pendingGet := n; pendingPost := pendingPost w;
                 console := (console w ++ out ++ [UnhandledException e])%list |}
          end
      end
  | PostCompleted www =>
      match pendingPost w with
      | O => w
      | S n =>
          {| signaler := signaler w; pendingGet := pendingGet w; pendingPost := n;
             console := (console w ++ PostToServer_resumed (signaler w) www)%list |}
      end
  | IceCandidateReady candidate sdpMlineIndex sdpMid =>
      publish w (OnIceCandiateReadyToSend (signaler w) candidate sdpMlineIndex sdpMid)
  | SdpOfferReady offer => publish w (OnSdpOfferReadyToSend (signaler w) offer)
  | SdpAnswerReady answer => publish w (OnSdpAnswerReadyToSend (signaler w) answer)
  end.

Fixpoint run `{JsonUtility} (w : Session) (evs : list Event) : Session :=
  match evs with
  | [] => w
  | ev :: rest => run (step w ev) rest
  end.

(** [P] holds of every state the run goes through, the first and the last
    included. *)
Fixpoint throughout `{JsonUtility} (P : Session -> bool) (w : Session) (evs : list Event)
  : bool :=
  P w && match evs with
         | [] => true
         | ev :: rest => throughout P (step w ev) rest
         end.

(** The accumulated time is strictly below the poll interval. *)
Definition below_interval (w : Session) : bool :=
  Single.ltb (timeSincePollMs (signaler w)) (PollTimeMs (signaler w)).

(** A fetch is in flight: the guard of [Update] is down. *)
Definition fetch_in_flight (self : NodeDssSignaler) : bool := negb (lastGetComplete self).

(** ** The tick of the specification

    The specification's words for [tick], to compare [Update] with: the
    supplied time is accumulated on every tick; on the tick at which the
    accumulator reaches the interval it is reset to zero and, only if no
    fetch is in flight, a fetch is issued. *)
Definition tick_spec (self : NodeDssSignaler) (deltaTime : Single.float)
  : NodeDssSignaler * list Effect :=
  let accumulated :=
    Single.add (timeSincePollMs self) (Single.mul deltaTime (Single.of_Z 1000)) in
  if Single.leb (PollTimeMs self) accumulated
  then
    let self := set_timeSincePollMs self Single.zero in
    if fetch_in_flight self
    then (self, [])
    else let self := set_lastGetComplete self false in
         (self, CO_GetAndProcessFromServer self)
  else (set_timeSincePollMs self accumulated, []).

(** ** Concrete inputs *)

Module Sample.

(** A stand-in for the engine's JSON: the first character gives the kind
    of message, the rest is [Data]; the empty text is [null], any other
    text is not parseable. Ice messages carry the separator of
    [OnIceCandiateReadyToSend]. *)
Definition toJson (msg : SignalerMessage) : string :=
  match MessageType msg with
  | Offer => String "O" (Data msg)
  | Answer => String "A" (Data msg)
  | Ice => String "I" (Data msg)
  | Unrecognized _ => String "U" (Data msg)
  end.

Definition fromJson (json : string) : Completion (option SignalerMessage) :=
  match json with
  | EmptyString => Returned None
  | String "O"%char data =>
      Returned (Some {| MessageType := Offer; Data := data; IceDataSeparator := "" |})
  | String "A"%char data =>
      Returned (Some {| MessageType := Answer; Data := data; IceDataSeparator := "" |})
  | String "I"%char data =>
      Returned (Some {| MessageType := Ice; Data := data; IceDataSeparator := "|" |})
  | String "U"%char data =>
      Returned (Some {| MessageType := Unrecognized 7; Data := data; IceDataSeparator := "" |})
  | _ => Threw ArgumentException
  end.

Definition json : JsonUtility := {| ToJson := toJson; FromJson := fromJson |}.

(** Two peers configured in the scene, before [Start]. *)
Definition configured : NodeDssSignaler :=
  set_LocalPeerId
    (set_HttpServerAddress NewNodeDssSignaler "http://127.0.0.1:3000") "alice".

(** The same signaler after [Start]. *)
Definition started : NodeDssSignaler :=
  set_HttpServerAddress configured "http://127.0.0.1:3000/".

(** A quarter of a second, as [Time.deltaTime]. *)
Definition quarter_second : Single.float := Single.of_Z_exp 1 (-2).

(** 400 ms accumulated, no fetch in flight. *)
Definition at_400ms : NodeDssSignaler := set_timeSincePollMs started (Single.of_Z 400).

(** 650 ms accumulated, a fetch in flight. *)
Definition at_650ms_in_flight : NodeDssSignaler :=
  set_lastGetComplete (set_timeSincePollMs started (Single.of_Z 650)) false.

(** 650 ms accumulated, no fetch in flight. *)
Definition at_650ms : NodeDssSignaler := set_timeSincePollMs started (Single.of_Z 650).

(** A successful response with the given body. *)
Definition ok (body : string) : UnityWebRequest :=
  {| isNetworkError := false; responseCode := 200; error := "";
     downloadHandler_text := body |}.

(** The relay has nothing for this peer. *)
Definition not_found : UnityWebRequest :=
  {| isNetworkError := false; responseCode := 404; error := "HTTP/1.1 404 Not Found";
     downloadHandler_text := "" |}.

(** The relay fails. *)
Definition server_error : UnityWebRequest :=
  {| isNetworkError := false; responseCode := 500;
     error := "HTTP/1.1 500 Internal Server Error"; downloadHandler_text := "" |}.

(** The relay cannot be reached. *)
Definition unreachable : UnityWebRequest :=
  {| isNetworkError := true; responseCode := 0; error := "Cannot connect to destination host";
     downloadHandler_text := "" |}.

(** An Ice message with two fields only. *)
Definition short_ice : UnityWebRequest := ok "Ia|0".

(** An Ice message whose second field is not a number. *)
Definition ice_without_index : UnityWebRequest := ok "Ia|b|c".

(** Two peers on one server, each the remote peer of the other, with a
    fetch in flight. *)
Definition alice : NodeDssSignaler :=
  {| AutoLogErrors := true; LocalPeerId := "alice"; RemotePeerId := "bob";
     HttpServerAddress := "http://127.0.0.1:3000/";
     PollTimeMs := Single.of_Z 500; timeSincePollMs := Single.zero;
     lastGetComplete := false |}.

Definition bob : NodeDssSignaler :=
  {| AutoLogErrors := true; LocalPeerId := "bob"; RemotePeerId := "alice";
     HttpServerAddress := "http://127.0.0.1:3000/";
     PollTimeMs := Single.of_Z 500; timeSincePollMs := Single.zero;
     lastGetComplete := false |}.

(** A session whose single fetch is waiting for its response. *)
Definition fetching : Session :=
  {| signaler := set_lastGetComplete started false; pendingGet := 1; pendingPost := 0;
     console := CO_GetAndProcessFromServer started |}.

End Sample.

(** ** What holds along a session *)

(** The fields no event of a session writes. *)
Definition same_configuration (a b : NodeDssSignaler) : Prop :=
  AutoLogErrors a = AutoLogErrors b /\
  LocalPeerId a = LocalPeerId b /\
  RemotePeerId a = RemotePeerId b /\
  HttpServerAddress a = HttpServerAddress b /\
  PollTimeMs a = PollTimeMs b.

(** The guard of [Update] counts the fetches in flight: at most one, and
    none while the guard is up. *)
Definition guarded (w : Session) : Prop :=
  (pendingGet w <= 1)%nat /\
  (lastGetComplete (signaler w) = true -> pendingGet w = 0%nat).

Definition IsRequest (e : Effect) : bool :=
  match e with
  | SendWebRequest _ _ _ => true
  | _ => false
  end.

(** A request goes to [<address>data/<peer>]: a GET for the local peer, a
    POST for the remote one. *)
Definition addressed (self : NodeDssSignaler) (e : Effect) : Prop :=
  match e with
  | SendWebRequest verb url _ =>
      (verb = "GET" /\ url = HttpServerAddress self ++ "data/" ++ LocalPeerId self) \/
      (verb = "POST" /\ url = HttpServerAddress self ++ "data/" ++ RemotePeerId self)
  | _ => True
  end.

(** ** Counting along a session *)

Definition count_posts (out : list Effect) : nat := List.length (filter IsPost out).

(** The events of the native peer, each of which starts a publish. *)
Definition IsPublishEvent (ev : Event) : bool :=
  match ev with
  | IceCandidateReady _ _ _ | SdpOfferReady _ | SdpAnswerReady _ => true
  | _ => false
  end.

Definition IsGetCompleted (ev : Event) : bool :=
  match ev with
  | GetCompleted _ => true
  | _ => false
  end.

(** The line the coroutine prints for every message it receives. *)
Definition received_line (msg : SignalerMessage) : Effect :=
  DebugLog ("Received SDP message: type=" ++ WireMessageType_ToString (MessageType msg)
              ++ " data=" ++ Data msg).

(** ** Slashes at the end of the address *)

(** [n] times the character [c]. *)
Fixpoint Repeat (c : ascii) (n : nat) : string :=
  match n with
  | O => EmptyString
  | S k => String c (Repeat c k)
  end.

(** How many [c] the string [s] ends with. *)
Fixpoint TrailingCount (s : string) (c : ascii) : nat :=
  match s with
  | EmptyString => O
  | String a rest =>
      let n := TrailingCount rest c in
      if Nat.eqb n (String.length rest) && Ascii.eqb a c then S n else n
  end.

(** The specification's shape of a request URL: a base that does not end
    with a slash, exactly one slash, then the path [data/<peer>]. *)
Definition one_slash_url (url : string) : Prop :=
  exists base peer,
    DotNet.EndsWithChar base "/" = false /\ url = base ++ "/" ++ "data/" ++ peer.

Definition one_slash_request (e : Effect) : Prop :=
  match e with
  | SendWebRequest _ url _ => one_slash_url url
  | _ => True
  end.

(** ** A native peer that may reject a call

    The calls on the native peer are made on an object the signaler does not
    own: each of them returns, or throws. *)
Class NativePeer : Type := {
  Invoke : Effect -> Completion unit
}.

(** A call on the native peer: it is made, and ends as the peer decides. *)
Definition call `{NativePeer} (e : Effect) : M unit := ([e], Invoke e).

(** The [switch] on the type of a received message, on such a peer. *)
Definition Dispatch_on `{NativePeer} (msg : SignalerMessage) : M unit :=
  (match MessageType msg with
   | Offer =>
       call (SetRemoteDescription "offer" (Data msg)) ;;
       call CreateAnswer
   | Answer =>
       call (SetRemoteDescription "answer" (Data msg))
   | Ice =>
       let parts := DotNet.Split (Data msg) (IceDataSeparator msg) in
       candidate <- lift (DotNet.Index parts 0) ;;
       text <- lift (DotNet.Index parts 1) ;;
       sdpMlineIndex <- lift (DotNet.Int32.Parse text) ;;
       sdpMid <- lift (DotNet.Index parts 2) ;;
       call (AddIceCandidate candidate sdpMlineIndex sdpMid)
   | Unrecognized _ =>
       perform (DebugLog ("Unknown message: " ++ WireMessageType_ToString (MessageType msg)
                            ++ ": " ++ Data msg))
   end)%signaler.

(** [CO_GetAndProcessFromServer] from its [yield] on, on such a peer. *)
Definition CO_GetAndProcessFromServer_resumed_on `{JsonUtility} `{NativePeer}
    (self : NodeDssSignaler) (www : UnityWebRequest) : M NodeDssSignaler :=
  ((if negb (isNetworkError www) && negb (isHttpError www)
    then
      let json := downloadHandler_text www in
      msg <- lift (FromJson json) ;;
      match msg with
      | Some msg =>
          perform (DebugLog ("Received SDP message: type="
                               ++ WireMessageType_ToString (MessageType msg)
                               ++ " data=" ++ Data msg)) ;;
          Dispatch_on msg
      | None =>
          if AutoLogErrors self
          then perform (DebugLogError ("Failed to deserialize JSON message : " ++ json))
          else ret tt
      end
    else if AutoLogErrors self && isNetworkError www
    then perform (DebugLogError ("Network error trying to send data to "
                                   ++ HttpServerAddress self ++ ": " ++ error www))
    else ret tt) ;;
   ret (set_lastGetComplete self true))%signaler.

(** A native peer that accepts every call. *)
Definition accepting : NativePeer := {| Invoke := fun _ => Returned tt |}.


(** * Properties *)

(** ** Comparison of floats *)

Lemma ltb_leb (x y : Single.float) : Single.ltb x y = true -> Single.leb x y = true.
Proof.
  unfold Single.ltb, Single.leb, SFltb, SFleb.
  destruct (SFcompare x y) as [[ | | ] | ]; intros Hlt; try discriminate; reflexivity.
Qed.

(** ** Effects and exceptions *)

Lemma bind_ret_returned {A B : Type} (m : M A) (b : B) (out : list Effect) (r : B) :
  bind m (fun _ => ret b) = (out, Returned r) ->
  r = b /\ exists a, m = (out, Returned a).
Proof.
  destruct m as [out1 [a | e]]; simpl; intros Heq; inversion Heq; subst.
  split; [reflexivity | ].
  exists a. now rewrite List.app_nil_r.
Qed.


(** A coroutine that is resumed and returns has run its last statement, and
    nothing else touched the signaler. *)
Lemma resumed_returned `{JsonUtility} (self self' : NodeDssSignaler) (www : UnityWebRequest)
    (out : list Effect) :
  CO_GetAndProcessFromServer_resumed self www = (out, Returned self') ->
  self' = set_lastGetComplete self true.
Proof.
  unfold CO_GetAndProcessFromServer_resumed. intros Heq.
  now apply bind_ret_returned in Heq.
Qed.

(** A response that is an error of either kind is not parsed. *)
Lemma resumed_on_error `{JsonUtility} (self : NodeDssSignaler) (www : UnityWebRequest) :
  isNetworkError www || isHttpError www = true ->
  CO_GetAndProcessFromServer_resumed self www =
    ((if AutoLogErrors self && isNetworkError www
      then [DebugLogError ("Network error trying to send data to "
                             ++ HttpServerAddress self ++ ": " ++ error www)]
      else []),
     Returned (set_lastGetComplete self true)).
Proof.
  intros Herr. unfold CO_GetAndProcessFromServer_resumed.
  destruct (isNetworkError www), (isHttpError www); try discriminate; simpl;
    destruct (AutoLogErrors self); reflexivity.
Qed.

(** A response that is a message goes through [Dispatch]. *)
Lemma resumed_on_message `{JsonUtility} (self : NodeDssSignaler) (www : UnityWebRequest)
    (msg : SignalerMessage) :
  isNetworkError www = false ->
  isHttpError www = false ->
  FromJson (downloadHandler_text www) = Returned (Some msg) ->
  CO_GetAndProcessFromServer_resumed self www =
    let received := DebugLog ("Received SDP message: type="
                                ++ WireMessageType_ToString (MessageType msg)
                                ++ " data=" ++ Data msg) in
    match Dispatch msg with
    | (out, Returned _) => (received :: out, Returned (set_lastGetComplete self true))
    | (out, Threw e) => (received :: out, Threw e)
    end.
Proof.
  intros Hnet Hhttp Hjson. unfold CO_GetAndProcessFromServer_resumed.
  rewrite Hnet, Hhttp, Hjson. simpl.
  destruct (Dispatch msg) as [out [[] | e]]; simpl; [ | reflexivity].
  now rewrite List.app_nil_r.
Qed.

(** An Ice message with fewer than three fields, or whose second field is
    not a number, never reaches the native peer: an exception escapes the
    [switch]. *)
Lemma Dispatch_short_ice_throws (msg : SignalerMessage) :
  MessageType msg = Ice ->
  (List.length (DotNet.Split (Data msg) (IceDataSeparator msg)) < 3)%nat ->
  exists e, Dispatch msg = ([], Threw e).
Proof.
  intros Htype Hshort. unfold Dispatch. rewrite Htype.
  destruct (DotNet.Split (Data msg) (IceDataSeparator msg)) as [ | p0 [ | p1 [ | p2 rest]]];
    simpl in Hshort; try lia; unfold DotNet.Index; simpl.
  - now exists IndexOutOfRangeException.
  - now exists IndexOutOfRangeException.
  - destruct (DotNet.Int32.Parse p1) as [i | e]; simpl.
    + now exists IndexOutOfRangeException.
    + now exists e.
Qed.

Lemma Dispatch_unparsed_index_throws (msg : SignalerMessage) (p0 p1 : string)
    (rest : list string) (e : Exception) :
  MessageType msg = Ice ->
  DotNet.Split (Data msg) (IceDataSeparator msg) = p0 :: p1 :: rest ->
  DotNet.Int32.Parse p1 = Threw e ->
  Dispatch msg = ([], Threw e).
Proof.
  intros Htype Hparts Hparse. unfold Dispatch. rewrite Htype, Hparts.
  unfold DotNet.Index. simpl. now rewrite Hparse.
Qed.

(** ** One tick *)

Lemma Update_accumulating (self : NodeDssSignaler) (deltaTime : Single.float) :
  Single.leb (timeSincePollMs self) (PollTimeMs self) = true ->
  Update self deltaTime =
    (set_timeSincePollMs self
       (Single.add (timeSincePollMs self) (Single.mul deltaTime (Single.of_Z 1000))), []).
Proof. intros Hle. unfold Update. now rewrite Hle. Qed.

Lemma Update_waiting (self : NodeDssSignaler) (deltaTime : Single.float) :
  Single.leb (timeSincePollMs self) (PollTimeMs self) = false ->
  lastGetComplete self = false ->
  Update self deltaTime = (self, []).
Proof. intros Hle Hflag. unfold Update. now rewrite Hle, Hflag. Qed.

Lemma Update_polling (self : NodeDssSignaler) (deltaTime : Single.float) :
  Single.leb (timeSincePollMs self) (PollTimeMs self) = false ->
  lastGetComplete self = true ->
  Update self deltaTime =
    (set_lastGetComplete (set_timeSincePollMs self Single.zero) false,
     [SendWebRequest "GET" (HttpServerAddress self ++ "data/" ++ LocalPeerId self) None]).
Proof. intros Hle Hflag. unfold Update. now rewrite Hle, Hflag. Qed.

Lemma Update_case (self : NodeDssSignaler) (deltaTime : Single.float) :
  UpdateCase self deltaTime (Update self deltaTime).
Proof.
  destruct (Single.leb (timeSincePollMs self) (PollTimeMs self)) eqn:Hle.
  - rewrite Update_accumulating by assumption. now constructor.
  - destruct (lastGetComplete self) eqn:Hflag.
    + rewrite Update_polling by assumption. now constructor.
    + rewrite Update_waiting by assumption. now constructor.
Qed.

(** ** Effects of the coroutines *)

Lemma bind_effects {A B : Type} (P : Effect -> Prop) (m : M A) (k : A -> M B) :
  Forall P (fst m) -> (forall a, Forall P (fst (k a))) -> Forall P (fst (bind m k)).
Proof.
  intros Hm Hk. destruct m as [out [a | e]]; simpl in *; [ | assumption].
  specialize (Hk a). destruct (k a) as [out' r]; simpl in *.
  apply Forall_app. now split.
Qed.

Lemma lift_effects {A : Type} (P : Effect -> Prop) (c : Completion A) :
  Forall P (fst (lift c)).
Proof. constructor. Qed.

Lemma perform_effects (P : Effect -> Prop) (e : Effect) : P e -> Forall P (fst (perform e)).
Proof. intros He. simpl. now repeat constructor. Qed.

Ltac effects :=
  repeat first
    [ apply bind_effects; [ | intros ? ]
    | apply lift_effects
    | apply perform_effects; reflexivity
    | apply Forall_nil ].

Lemma Dispatch_no_request (msg : SignalerMessage) :
  Forall (fun e => IsRequest e = false) (fst (Dispatch msg)).
Proof. unfold Dispatch. destruct (MessageType msg); effects. Qed.

Lemma resumed_no_request `{JsonUtility} (self : NodeDssSignaler) (www : UnityWebRequest) :
  Forall (fun e => IsRequest e = false) (fst (CO_GetAndProcessFromServer_resumed self www)).
Proof.
  unfold CO_GetAndProcessFromServer_resumed. effects.
  destruct (negb (isNetworkError www) && negb (isHttpError www)).
  - effects. destruct a as [msg | ]; effects.
    + apply Dispatch_no_request.
    + destruct (AutoLogErrors self); effects.
  - destruct (AutoLogErrors self && isNetworkError www); effects.
Qed.

Lemma PostToServer_resumed_no_request (self : NodeDssSignaler) (www : UnityWebRequest) :
  Forall (fun e => IsRequest e = false) (PostToServer_resumed self www).
Proof.
  unfold PostToServer_resumed.
  destruct (AutoLogErrors self && (isNetworkError www || isHttpError www));
    repeat constructor.
Qed.

Lemma no_request_addressed (self : NodeDssSignaler) (out : list Effect) :
  Forall (fun e => IsRequest e = false) out -> Forall (addressed self) out.
Proof.
  apply Forall_impl. intros [ | | | | | verb url body | ]; simpl; try easy.
Qed.

Lemma no_request_count_gets (out : list Effect) :
  Forall (fun e => IsRequest e = false) out -> count_gets out = 0%nat.
Proof.
  unfold count_gets. induction 1 as [ | e out He _ IH]; [reflexivity | ].
  simpl. destruct e; simpl in *; try discriminate; assumption.
Qed.

(** ** Steps of a session *)

Lemma same_configuration_refl (a : NodeDssSignaler) : same_configuration a a.
Proof. now repeat split. Qed.

Lemma same_configuration_trans (a b c : NodeDssSignaler) :
  same_configuration a b -> same_configuration b c -> same_configuration a c.
Proof.
  unfold same_configuration. intros (?&?&?&?&?) (?&?&?&?&?).
  repeat split; congruence.
Qed.

Lemma Update_configuration (self : NodeDssSignaler) (deltaTime : Single.float) :
  same_configuration self (fst (Update self deltaTime)).
Proof. destruct (Update_case self deltaTime); now repeat split. Qed.

Lemma step_configuration `{JsonUtility} (w : Session) (ev : Event) :
  same_configuration (signaler w) (signaler (step w ev)).
Proof.
  destruct ev as [dt | www | www | c i mid | offer | answer]; simpl;
    try apply same_configuration_refl.
  - pose proof (Update_configuration (signaler w) dt) as Hcfg.
    destruct (Update (signaler w) dt) as [self out]. exact Hcfg.
  - destruct (pendingGet w); [apply same_configuration_refl | ].
    destruct (CO_GetAndProcessFromServer_resumed (signaler w) www) as [out [self | e]] eqn:Hres;
      simpl; [ | apply same_configuration_refl].
    apply resumed_returned in Hres. subst self. now repeat split.
  - destruct (pendingPost w); apply same_configuration_refl.
Qed.

Lemma run_configuration `{JsonUtility} (evs : list Event) (w : Session) :
  same_configuration (signaler w) (signaler (run w evs)).
Proof.
  revert w. induction evs as [ | ev evs IH]; intros w; simpl.
  - apply same_configuration_refl.
  - eapply same_configuration_trans; [apply step_configuration | apply IH].
Qed.

Lemma step_guarded `{JsonUtility} (w : Session) (ev : Event) :
  guarded w -> guarded (step w ev).
Proof.
  intros Hw. pose proof Hw as [Hle Hup].
  destruct ev as [dt | www | www | c i mid | offer | answer]; simpl;
    try exact Hw.
  - destruct (Update_case (signaler w) dt) as [Hacc | Hacc Hflag | Hacc Hflag];
      unfold guarded; simpl.
    + now rewrite Nat.add_0_r.
    + now rewrite Nat.add_0_r.
    + rewrite (Hup Hflag). split; [apply Nat.le_refl | discriminate].
  - destruct (pendingGet w) as [ | n] eqn:Hn; [exact Hw | ].
    assert (n = 0%nat) by lia. subst n.
    destruct (CO_GetAndProcessFromServer_resumed (signaler w) www) as [out [self | e]];
      unfold guarded; simpl; split; auto with arith.
  - destruct (pendingPost w); [exact Hw | ]. exact Hw.
Qed.

Lemma run_guarded `{JsonUtility} (evs : list Event) (w : Session) :
  guarded w -> guarded (run w evs).
Proof.
  revert w. induction evs as [ | ev evs IH]; intros w Hw; simpl; [assumption | ].
  apply IH. now apply step_guarded.
Qed.

Lemma step_addressed `{JsonUtility} (self : NodeDssSignaler) (w : Session) (ev : Event) :
  same_configuration self (signaler w) ->
  Forall (addressed self) (console w) ->
  Forall (addressed self) (console (step w ev)).
Proof.
  intros (_ & Hlocal & Hremote & Haddr & _) Hall.
  destruct ev as [dt | www | www | c i mid | offer | answer]; simpl.
  - destruct (Update_case (signaler w) dt); simpl; rewrite ?List.app_nil_r; try assumption.
    apply Forall_app. split; [assumption | ].
    constructor; [ | constructor]. left. split; [reflexivity | ].
    now rewrite Haddr, Hlocal.
  - destruct (pendingGet w); [assumption | ].
    pose proof (resumed_no_request (signaler w) www) as Hnone.
    destruct (CO_GetAndProcessFromServer_resumed (signaler w) www) as [out [s | e]];
      simpl in *; repeat (apply Forall_app; split); try assumption;
      try (now apply no_request_addressed).
    constructor; [exact I | constructor].
  - destruct (pendingPost w); [assumption | ]. simpl.
    apply Forall_app. split; [assumption | ].
    apply no_request_addressed, PostToServer_resumed_no_request.
  - apply Forall_app. split; [assumption | ].
    constructor; [ | constructor]. right. split; [reflexivity | ].
    now rewrite Haddr, Hremote.
  - apply Forall_app. split; [assumption | ].
    constructor; [ | constructor]. right. split; [reflexivity | ].
    now rewrite Haddr, Hremote.
  - apply Forall_app. split; [assumption | ].
    constructor; [ | constructor]. right. split; [reflexivity | ].
    now rewrite Haddr, Hremote.
Qed.

Lemma run_addressed `{JsonUtility} (self : NodeDssSignaler) (evs : list Event) (w : Session) :
  same_configuration self (signaler w) ->
  Forall (addressed self) (console w) ->
  Forall (addressed self) (console (run w evs)).
Proof.
  revert w. induction evs as [ | ev evs IH]; intros w Hcfg Hall; simpl; [assumption | ].
  apply IH.
  - eapply same_configuration_trans; [exact Hcfg | apply step_configuration].
  - now apply step_addressed.
Qed.

Lemma count_gets_app (a b : list Effect) :
  count_gets (a ++ b) = (count_gets a + count_gets b)%nat.
Proof. unfold count_gets. now rewrite filter_app, length_app. Qed.

(** A fetch is issued by a tick only, with the guard up, and the same tick
    takes the guard down. *)
Lemma step_issues `{JsonUtility} (w : Session) (ev : Event) :
  (pendingGet w < pendingGet (step w ev))%nat ->
  (exists deltaTime, ev = Tick deltaTime) /\
  lastGetComplete (signaler w) = true /\
  lastGetComplete (signaler (step w ev)) = false.
Proof.
  destruct ev as [dt | www | www | c i mid | offer | answer]; simpl;
    try (intros Hlt; exfalso; lia).
  - destruct (Update_case (signaler w) dt) as [Hacc | Hacc Hflag | Hacc Hflag];
      unfold count_gets; simpl; try (intros Hlt; exfalso; lia).
    intros _. repeat split; [now exists dt | assumption].
  - destruct (pendingGet w) as [ | n] eqn:Hn; [intros Hlt; exfalso; lia | ].
    destruct (CO_GetAndProcessFromServer_resumed (signaler w) www) as [out [self | e]];
      simpl; intros Hlt; exfalso; lia.
  - destruct (pendingPost w); simpl; intros Hlt; exfalso; lia.
Qed.

(** The guard goes up only when the coroutine of a fetch in flight is
    resumed with its completed request. *)
Lemma step_clears `{JsonUtility} (w : Session) (ev : Event) :
  lastGetComplete (signaler w) = false ->
  lastGetComplete (signaler (step w ev)) = true ->
  exists www, ev = GetCompleted www /\ pendingGet w = S (pendingGet (step w ev)).
Proof.
  intros Hdown.
  destruct ev as [dt | www | www | c i mid | offer | answer]; simpl;
    try (intros Hup; exfalso; congruence).
  - destruct (Update_case (signaler w) dt) as [Hacc | Hacc Hflag | Hacc Hflag]; simpl;
      intros Hup; exfalso; congruence.
  - destruct (pendingGet w) as [ | n] eqn:Hn; [intros Hup; exfalso; congruence | ].
    destruct (CO_GetAndProcessFromServer_resumed (signaler w) www) as [out [self | e]];
      simpl; intros Hup; [ | exfalso; congruence].
    now exists www.
  - destruct (pendingPost w); simpl; intros Hup; exfalso; congruence.
Qed.

(** With the guard down and no coroutine left to put it up, nothing is
    fetched any more. *)
Lemma step_stalled `{JsonUtility} (w : Session) (ev : Event) :
  lastGetComplete (signaler w) = false ->
  pendingGet w = 0%nat ->
  lastGetComplete (signaler (step w ev)) = false /\
  pendingGet (step w ev) = 0%nat /\
  count_gets (console (step w ev)) = count_gets (console w).
Proof.
  intros Hdown Hnone.
  destruct ev as [dt | www | www | c i mid | offer | answer]; simpl;
    rewrite ?Hnone; simpl; rewrite ?count_gets_app; simpl; auto with arith.
  - destruct (Update_case (signaler w) dt) as [Hacc | Hacc Hflag | Hacc Hflag]; simpl;
      rewrite ?Hnone, ?List.app_nil_r; auto.
    congruence.
  - destruct (pendingPost w); simpl; rewrite ?count_gets_app; auto.
    rewrite (no_request_count_gets _ (PostToServer_resumed_no_request _ www)).
    auto with arith.
Qed.

Lemma run_stalled `{JsonUtility} (evs : list Event) (w : Session) :
  lastGetComplete (signaler w) = false ->
  pendingGet w = 0%nat ->
  lastGetComplete (signaler (run w evs)) = false /\
  pendingGet (run w evs) = 0%nat /\
  count_gets (console (run w evs)) = count_gets (console w).
Proof.
  revert w. induction evs as [ | ev evs IH]; intros w Hdown Hnone; simpl; [auto | ].
  destruct (step_stalled w ev Hdown Hnone) as (Hdown' & Hnone' & Hcount).
  rewrite <- Hcount. now apply IH.
Qed.

(** A tick below the interval only accumulates. *)
Lemma step_idle `{JsonUtility} (w : Session) (deltaTime : Single.float) :
  below_interval w = true ->
  console (step w (Tick deltaTime)) = console w /\
  pendingGet (step w (Tick deltaTime)) = pendingGet w.
Proof.
  intros Hbelow. apply ltb_leb in Hbelow. simpl.
  rewrite Update_accumulating by assumption. simpl.
  now rewrite List.app_nil_r, Nat.add_0_r.
Qed.

(** Once the guard is up again, the next tick above the interval fetches. *)
Lemma polls_again (self : NodeDssSignaler) (deltaTime : Single.float) :
  Single.leb (timeSincePollMs self) (PollTimeMs self) = false ->
  snd (Update (set_lastGetComplete self true) deltaTime) =
    [SendWebRequest "GET" (HttpServerAddress self ++ "data/" ++ LocalPeerId self) None].
Proof. intros Hle. now rewrite Update_polling. Qed.

(** ** Strings *)

Lemma EndsWithChar_append (s : string) (c : ascii) :
  DotNet.EndsWithChar (s ++ String c "") c = true.
Proof.
  induction s as [ | a s IH]; simpl.
  - apply Ascii.eqb_refl.
  - destruct (s ++ String c "") eqn:Hs; [ | exact IH].
    destruct s; discriminate.
Qed.

Lemma EndsWithChar_stem (s : string) (c : ascii) :
  DotNet.EndsWithChar s c = true -> exists stem, s = stem ++ String c "".
Proof.
  induction s as [ | a s IH]; simpl; [discriminate | ].
  destruct s as [ | b s].
  - intros Heq. apply Ascii.eqb_eq in Heq. subst a. now exists "".
  - intros Hend. destruct (IH Hend) as [stem Hstem].
    exists (String a stem). simpl. now rewrite <- Hstem.
Qed.

Lemma prefix_char (b c : ascii) (rest : string) :
  prefix (String b "") (String c rest) = Ascii.eqb b c.
Proof.
  simpl. destruct (ascii_dec b c) as [Heq | Hneq].
  - subst c. rewrite Ascii.eqb_refl. now destruct rest.
  - symmetry. now apply Ascii.eqb_neq.
Qed.

Lemma Contains_char_cons (b c : ascii) (rest : string) :
  DotNet.Contains (String c rest) (String b "") = false ->
  Ascii.eqb b c = false /\ DotNet.Contains rest (String b "") = false.
Proof.
  cbn [DotNet.Contains]. rewrite prefix_char. apply orb_false_elim.
Qed.

(** A string in which the separator does not occur is one piece. *)
Lemma SplitPieces_none (b : ascii) (s : string) :
  DotNet.Contains s (String b "") = false ->
  DotNet.SplitPieces (String b "") 0 s = [s].
Proof.
  induction s as [ | c s IH]; [reflexivity | ].
  intros Hno. apply Contains_char_cons in Hno as [Hc Hs].
  cbn [DotNet.SplitPieces]. rewrite prefix_char, Hc. simpl.
  now rewrite (IH Hs).
Qed.

(** The first separator ends the first piece. *)
Lemma SplitPieces_first (b : ascii) (s rest : string) :
  DotNet.Contains s (String b "") = false ->
  DotNet.SplitPieces (String b "") 0 (s ++ String b rest) =
    s :: DotNet.SplitPieces (String b "") 0 rest.
Proof.
  induction s as [ | c s IH]; intros Hno.
  - cbn [append DotNet.SplitPieces]. rewrite prefix_char, Ascii.eqb_refl. reflexivity.
  - apply Contains_char_cons in Hno as [Hc Hs].
    cbn [append DotNet.SplitPieces]. rewrite prefix_char, Hc. simpl.
    now rewrite (IH Hs).
Qed.

(** Three non-empty fields joined by a separator they do not contain split
    into themselves. *)
Lemma Split_three (b : ascii) (x y z : string) :
  DotNet.IsNullOrEmpty x = false ->
  DotNet.IsNullOrEmpty y = false ->
  DotNet.IsNullOrEmpty z = false ->
  DotNet.Contains x (String b "") = false ->
  DotNet.Contains y (String b "") = false ->
  DotNet.Contains z (String b "") = false ->
  DotNet.Split (x ++ String b "" ++ y ++ String b "" ++ z) (String b "") = [x; y; z].
Proof.
  intros Hx Hy Hz Hnx Hny Hnz. unfold DotNet.Split.
  change (String b "" ++ y ++ String b "" ++ z) with (String b (y ++ String b z)).
  rewrite (SplitPieces_first b x _ Hnx), (SplitPieces_first b y _ Hny),
    (SplitPieces_none b z Hnz).
  simpl. now rewrite Hx, Hy, Hz.
Qed.

(** ** Printing and parsing an [int] *)

Lemma ParseDigits_printed_onto (d : Decimal.uint) (acc : positive) :
  DotNet.Int32.ParseDigits (Zpos acc) (NilEmpty.string_of_uint d) =
    (Zpos (Pos.of_uint_acc d acc), "").
Proof.
  revert acc. induction d as [ | d IH | d IH | d IH | d IH | d IH | d IH | d IH | d IH | d IH | d IH];
    intros acc; [reflexivity | .. ];
    cbn [NilEmpty.string_of_uint DotNet.Int32.ParseDigits Pos.of_uint_acc];
    match goal with
    | |- context [DotNet.Int32.DigitValue ?c] =>
        let v := eval vm_compute in (DotNet.Int32.DigitValue c) in
        change (DotNet.Int32.DigitValue c) with v
    end; cbv iota; rewrite <- IH; f_equal; lia.
Qed.

Lemma ParseDigits_printed (d : Decimal.uint) :
  DotNet.Int32.ParseDigits 0 (NilEmpty.string_of_uint d) = (Z.of_N (Pos.of_uint d), "").
Proof.
  induction d as [ | d IH | d IH | d IH | d IH | d IH | d IH | d IH | d IH | d IH | d IH];
    [reflexivity | exact IH | .. ];
    cbn [NilEmpty.string_of_uint DotNet.Int32.ParseDigits Pos.of_uint];
    match goal with
    | |- context [DotNet.Int32.DigitValue ?c] =>
        let v := eval vm_compute in (DotNet.Int32.DigitValue c) in
        change (DotNet.Int32.DigitValue c) with v
    end; cbv iota; apply (ParseDigits_printed_onto d).
Qed.

Ltac classify_chars :=
  repeat match goal with
    | |- context [DotNet.Int32.IsWhite (Ascii ?a ?b ?c ?d ?e ?f ?g ?h)] =>
        let v := eval vm_compute in (DotNet.Int32.IsWhite (Ascii a b c d e f g h)) in
        change (DotNet.Int32.IsWhite (Ascii a b c d e f g h)) with v
    | |- context [DotNet.Int32.DigitValue (Ascii ?a ?b ?c ?d ?e ?f ?g ?h)] =>
        let v := eval vm_compute in (DotNet.Int32.DigitValue (Ascii a b c d e f g h)) in
        change (DotNet.Int32.DigitValue (Ascii a b c d e f g h)) with v
    end.
Lemma Parse_digits (d : Decimal.uint) :
  d <> Decimal.Nil ->
  DotNet.Int32.Parse (NilEmpty.string_of_uint d) =
    (if DotNet.Int32.InRange (Z.of_N (Pos.of_uint d))
     then Returned (Z.of_N (Pos.of_uint d)) else Threw OverflowException) /\
  DotNet.Int32.Parse (String "-" (NilEmpty.string_of_uint d)) =
    (if DotNet.Int32.InRange (- Z.of_N (Pos.of_uint d))
     then Returned (- Z.of_N (Pos.of_uint d)) else Threw OverflowException).
Proof.
  intros Hd. pose proof (ParseDigits_printed d) as Hdigits.
  destruct d; [contradiction | .. ];
    cbn [NilEmpty.string_of_uint] in *;
    unfold DotNet.Int32.Parse;
    cbn [DotNet.Int32.SkipWhite]; classify_chars; cbv iota;
    rewrite Hdigits; split; reflexivity.
Qed.

Lemma Parse_ToString (i : Z) :
  DotNet.Int32.InRange i = true ->
  DotNet.Int32.Parse (DotNet.Int32.ToString i) = Returned i.
Proof.
  intros Hrange. unfold DotNet.Int32.ToString.
  destruct i as [ | p | p]; [reflexivity | | ];
    cbn [Z.to_int NilZero.string_of_int];
    pose proof (Unsigned.to_uint_nonnil p) as Hnil;
    destruct (Parse_digits (Pos.to_uint p) Hnil) as [Hpos Hneg];
    unfold NilZero.string_of_uint;
    destruct (Pos.to_uint p) eqn:Hp; try contradiction;
    rewrite <- Hp in *; rewrite ?Hpos, ?Hneg, Unsigned.of_to; cbn [Z.of_N Z.opp];
    now rewrite Hrange.
Qed.

Lemma printed_uint_no_bar (d : Decimal.uint) :
  DotNet.Contains (NilEmpty.string_of_uint d) "|" = false.
Proof.
  induction d; cbn [NilEmpty.string_of_uint DotNet.Contains]; [reflexivity | .. ];
    rewrite prefix_char, IHd; reflexivity.
Qed.

Lemma ToString_fields (i : Z) :
  DotNet.IsNullOrEmpty (DotNet.Int32.ToString i) = false /\
  DotNet.Contains (DotNet.Int32.ToString i) "|" = false.
Proof.
  unfold DotNet.Int32.ToString.
  destruct i as [ | p | p]; [split; reflexivity | | ];
    cbn [Z.to_int NilZero.string_of_int]; unfold NilZero.string_of_uint;
    pose proof (Unsigned.to_uint_nonnil p) as Hnil;
    pose proof (printed_uint_no_bar (Pos.to_uint p)) as Hbar;
    destruct (Pos.to_uint p) eqn:Hp; try contradiction;
    (split; [reflexivity | ]);
    cbn [DotNet.Contains]; rewrite ?prefix_char; try exact Hbar.
  all: cbn [NilEmpty.string_of_uint DotNet.Contains] in *; rewrite ?prefix_char in *; exact Hbar.
Qed.

(** ** Slashes at the end of a string *)

Lemma append_assoc (a b c : string) : (a ++ b) ++ c = a ++ (b ++ c).
Proof. induction a as [ | x a IH]; simpl; [reflexivity | now rewrite IH]. Qed.

Lemma length_append (a b : string) :
  String.length (a ++ b) = (String.length a + String.length b)%nat.
Proof. induction a as [ | x a IH]; simpl; [reflexivity | now rewrite IH]. Qed.

Lemma length_Repeat (c : ascii) (n : nat) : String.length (Repeat c n) = n.
Proof. induction n as [ | n IH]; simpl; [reflexivity | now rewrite IH]. Qed.

Lemma TrailingCount_append (s : string) (c : ascii) :
  TrailingCount (s ++ String c "") c = S (TrailingCount s c).
Proof.
  induction s as [ | a s IH]; simpl.
  - now rewrite Ascii.eqb_refl.
  - rewrite IH, length_append. simpl. rewrite Nat.add_1_r. simpl.
    now destruct (Nat.eqb (TrailingCount s c) (String.length s) && Ascii.eqb a c).
Qed.

Lemma TrailingCount_cons (a : ascii) (rest : string) (c : ascii) :
  TrailingCount (String a rest) c =
    if Nat.eqb (TrailingCount rest c) (String.length rest) && Ascii.eqb a c
    then S (TrailingCount rest c) else TrailingCount rest c.
Proof. reflexivity. Qed.

Lemma TrailingCount_none (s : string) (c : ascii) :
  DotNet.EndsWithChar s c = false -> TrailingCount s c = 0%nat.
Proof.
  induction s as [ | a s IH]; [reflexivity | ].
  destruct s as [ | b s].
  - simpl. now intros ->.
  - intros Hends. change (DotNet.EndsWithChar (String b s) c = false) in Hends.
    rewrite TrailingCount_cons, (IH Hends). reflexivity.
Qed.

Lemma TrailingCount_some (s : string) (c : ascii) :
  DotNet.EndsWithChar s c = true -> (1 <= TrailingCount s c)%nat.
Proof.
  induction s as [ | a s IH]; [discriminate | ].
  destruct s as [ | b s].
  - simpl. intros ->. auto.
  - intros Hends. change (DotNet.EndsWithChar (String b s) c = true) in Hends.
    specialize (IH Hends). rewrite TrailingCount_cons.
    destruct (_ && _); lia.
Qed.

Lemma TrailingCount_le_length (s : string) (c : ascii) :
  (TrailingCount s c <= String.length s)%nat.
Proof.
  induction s as [ | a s IH]; simpl; [lia | ].
  destruct (_ && _); lia.
Qed.

Lemma TrailingCount_stem (s : string) (c : ascii) :
  exists stem,
    s = stem ++ Repeat c (TrailingCount s c) /\ DotNet.EndsWithChar stem c = false.
Proof.
  induction s as [ | a s (stem & Hs & Hstem)].
  - now exists "".
  - rewrite TrailingCount_cons.
    destruct (Nat.eqb (TrailingCount s c) (String.length s)) eqn:Hall; cbn [andb].
    + apply Nat.eqb_eq in Hall.
      assert (stem = "") as ->.
      { apply (f_equal String.length) in Hs.
        rewrite length_append, length_Repeat in Hs.
        destruct stem; [reflexivity | simpl in Hs; lia]. }
      simpl in Hs.
      destruct (Ascii.eqb a c) eqn:Hac.
      * apply Ascii.eqb_eq in Hac. subst a. exists "". simpl. now rewrite <- Hs.
      * exists (String a ""). simpl. rewrite Hac. now rewrite <- Hs.
    + exists (String a stem). simpl. rewrite <- Hs. split; [reflexivity | ].
      destruct stem as [ | b stem]; [ | exact Hstem].
      simpl in Hs. apply (f_equal String.length) in Hs. rewrite length_Repeat in Hs.
      apply Nat.eqb_neq in Hall. congruence.
Qed.

(** Requests to an address that ends with exactly one slash have the shape
    of the specification. *)
Lemma addressed_one_slash (self : NodeDssSignaler) (out : list Effect) :
  TrailingCount (HttpServerAddress self) "/" = 1%nat ->
  Forall (addressed self) out -> Forall one_slash_request out.
Proof.
  intros Hone. destruct (TrailingCount_stem (HttpServerAddress self) "/") as (stem & Hs & Hstem).
  rewrite Hone in Hs. simpl in Hs.
  apply Forall_impl. intros [ | | | | | verb url body | ]; simpl; try easy.
  intros [[_ ->] | [_ ->]]; rewrite Hs, append_assoc.
  - now exists stem, (LocalPeerId self).
  - now exists stem, (RemotePeerId self).
Qed.

(** * The claims *)

(** C1 (the code does not do this). The claim: an Ice message whose payload
    splits into fewer than three non-empty fields, or whose second field is
    not an integer, is rejected as malformed with a diagnostic, without a
    crash, and polling goes on. The code: for the payload "a|0" the resumed
    coroutine indexes [parts[2]] and an [IndexOutOfRangeException] escapes
    it; for "a|b|c" [int.Parse] throws a [FormatException]. In both cases
    the only console line is the one printed for every message, the last
    statement [lastGetComplete = true] is not reached, and from then on no
    sequence of events sends a GET again: the one GET of the session stays
    the only one. *)
Theorem C1_short_ice_payload_stops_polling :
  @CO_GetAndProcessFromServer_resumed Sample.json (signaler Sample.fetching)
     Sample.short_ice =
    ([DebugLog "Received SDP message: type=Ice data=a|0"], Threw IndexOutOfRangeException) /\
  @CO_GetAndProcessFromServer_resumed Sample.json (signaler Sample.fetching)
     Sample.ice_without_index =
    ([DebugLog "Received SDP message: type=Ice data=a|b|c"], Threw FormatException) /\
  (forall evs : list Event,
     let w := @run Sample.json Sample.fetching (GetCompleted Sample.short_ice :: evs) in
     fetch_in_flight (signaler w) = true /\ count_gets (console w) = 1%nat) /\
  (forall evs : list Event,
     let w := @run Sample.json Sample.fetching (GetCompleted Sample.ice_without_index :: evs) in
     fetch_in_flight (signaler w) = true /\ count_gets (console w) = 1%nat).
Proof.
  split; [reflexivity | split; [reflexivity | ]].
  split; intros evs w; subst w; cbn [run]; unfold fetch_in_flight;
    match goal with
    | |- context [run ?after evs] =>
        destruct (@run_stalled Sample.json evs after eq_refl eq_refl) as (Hflag & _ & Hcount)
    end; rewrite Hflag, Hcount; split; reflexivity.
Qed.

(** C2. Along every sequence of ticks, completions and publishes, starting
    with the guard up ([lastGetComplete = true], no fetch in flight), at most
    one fetch is outstanding. The guard is taken down by the very tick that
    sends a GET, which happens only when it was up; and it goes up again only
    when the coroutine of the outstanding fetch is resumed with its completed
    request, whatever the outcome, never before. *)
Theorem C2_at_most_one_fetch_in_flight `{JsonUtility} (self : NodeDssSignaler)
    (evs : list Event) :
  lastGetComplete self = true ->
  let w := run (begin_session self) evs in
  (pendingGet w <= 1)%nat /\
  (fetch_in_flight (signaler w) = false -> pendingGet w = 0%nat) /\
  forall ev : Event,
    ((pendingGet w < pendingGet (step w ev))%nat ->
       (exists deltaTime, ev = Tick deltaTime) /\
       fetch_in_flight (signaler w) = false /\
       fetch_in_flight (signaler (step w ev)) = true) /\
    (fetch_in_flight (signaler w) = true ->
     fetch_in_flight (signaler (step w ev)) = false ->
       exists www, ev = GetCompleted www /\
                   pendingGet w = 1%nat /\ pendingGet (step w ev) = 0%nat).
Proof.
  intros Hup w.
  assert (guarded w) as [Hle Hzero].
  { apply run_guarded. split; simpl; auto with arith. }
  unfold fetch_in_flight. split; [exact Hle | split].
  - intros Hflag. apply Hzero. now apply negb_false_iff in Hflag.
  - intros ev. split.
    + intros Hlt. destruct (step_issues w ev Hlt) as (Htick & Hbefore & Hafter).
      now rewrite Hbefore, Hafter.
    + intros Hbefore Hafter.
      apply negb_true_iff in Hbefore. apply negb_false_iff in Hafter.
      destruct (step_clears w ev Hbefore Hafter) as (www & Hev & Hpending).
      exists www. split; [assumption | lia].
Qed.

Lemma C2_at_most_one_fetch_in_flight_witness :
  lastGetComplete Sample.at_650ms = true /\
  (pendingGet
     (@run Sample.json (begin_session Sample.at_650ms)
        [Tick Sample.quarter_second; Tick Sample.quarter_second;
         GetCompleted Sample.not_found]) <= 1)%nat.
Proof.
  split; [reflexivity | ].
  exact (proj1 (@C2_at_most_one_fetch_in_flight Sample.json Sample.at_650ms
                  [Tick Sample.quarter_second; Tick Sample.quarter_second;
                   GetCompleted Sample.not_found] eq_refl)).
Defined.

(** C3, as the specification words it, fails on the code: with 400 ms
    accumulated, a poll interval of 500 ms and no fetch in flight, a tick of
    a quarter of a second brings the accumulator to 650 ms, past the
    interval; [Update] neither resets it nor sends a GET on that tick, while
    the tick of the specification does both. *)
Lemma C3_Update_is_not_tick_spec :
  let self := Sample.at_400ms in
  let deltaTime := Sample.quarter_second in
  Single.leb (PollTimeMs self)
    (Single.add (timeSincePollMs self) (Single.mul deltaTime (Single.of_Z 1000))) = true /\
  fetch_in_flight self = false /\
  tick_spec self deltaTime =
    (set_lastGetComplete (set_timeSincePollMs self Single.zero) false,
     [SendWebRequest "GET" "http://127.0.0.1:3000/data/alice" None]) /\
  Update self deltaTime = (set_timeSincePollMs self (Single.of_Z 650), []) /\
  Update self deltaTime <> tick_spec self deltaTime.
Proof.
  cbv zeta. repeat split; try reflexivity.
  vm_compute. discriminate.
Qed.

(** C3 (amended). A tick that finds the accumulator at or below the poll
    interval only adds the elapsed time, in milliseconds, to it. A tick that
    finds the accumulator above the interval adds nothing: while a fetch is
    in flight it changes nothing at all, the accumulator is not reset; with
    no fetch in flight it resets the accumulator to zero, takes the guard
    down and sends the GET. *)
Theorem C3_Update_accumulates_then_polls (self : NodeDssSignaler)
    (deltaTime : Single.float) :
  (Single.leb (timeSincePollMs self) (PollTimeMs self) = true ->
     Update self deltaTime =
       (set_timeSincePollMs self
          (Single.add (timeSincePollMs self) (Single.mul deltaTime (Single.of_Z 1000))),
        [])) /\
  (Single.leb (timeSincePollMs self) (PollTimeMs self) = false ->
   fetch_in_flight self = true ->
     Update self deltaTime = (self, [])) /\
  (Single.leb (timeSincePollMs self) (PollTimeMs self) = false ->
   fetch_in_flight self = false ->
     Update self deltaTime =
       (set_lastGetComplete (set_timeSincePollMs self Single.zero) false,
        [SendWebRequest "GET" (HttpServerAddress self ++ "data/" ++ LocalPeerId self) None])).
Proof.
  unfold fetch_in_flight. repeat split.
  - apply Update_accumulating.
  - intros Hle Hflag. apply negb_true_iff in Hflag. now apply Update_waiting.
  - intros Hle Hflag. apply negb_false_iff in Hflag. now apply Update_polling.
Qed.

Lemma C3_Update_accumulates_then_polls_witness :
  Update Sample.at_400ms Sample.quarter_second =
    (set_timeSincePollMs Sample.at_400ms (Single.of_Z 650), []) /\
  Update Sample.at_650ms_in_flight Sample.quarter_second = (Sample.at_650ms_in_flight, []) /\
  Update Sample.at_650ms Sample.quarter_second =
    (set_lastGetComplete (set_timeSincePollMs Sample.at_650ms Single.zero) false,
     [SendWebRequest "GET" "http://127.0.0.1:3000/data/alice" None]).
Proof.
  split; [ | split].
  - exact (proj1 (C3_Update_accumulates_then_polls Sample.at_400ms Sample.quarter_second)
             eq_refl).
  - exact (proj1 (proj2 (C3_Update_accumulates_then_polls Sample.at_650ms_in_flight
                           Sample.quarter_second)) eq_refl eq_refl).
  - exact (proj2 (proj2 (C3_Update_accumulates_then_polls Sample.at_650ms
                           Sample.quarter_second)) eq_refl eq_refl).
Defined.

(** C4. Along every sequence of ticks through which the accumulated time
    stays strictly below the poll interval, no fetch is sent: the ticks do
    nothing but accumulate. *)
Theorem C4_idle_ticks_issue_no_fetch `{JsonUtility} (deltas : list Single.float)
    (w : Session) :
  throughout below_interval w (map Tick deltas) = true ->
  console (run w (map Tick deltas)) = console w /\
  pendingGet (run w (map Tick deltas)) = pendingGet w.
Proof.
  revert w. induction deltas as [ | deltaTime deltas IH]; intros w; simpl.
  - now split.
  - intros Hall. apply andb_prop in Hall as [Hbelow Hrest].
    destruct (step_idle w deltaTime Hbelow) as [Hconsole Hpending].
    destruct (IH _ Hrest) as [Hconsole' Hpending'].
    simpl in *. split; congruence.
Qed.

Lemma C4_idle_ticks_issue_no_fetch_witness :
  let eighth := Single.of_Z_exp 1 (-3) in
  let w := begin_session Sample.started in
  @throughout Sample.json below_interval w (map Tick [eighth; eighth; eighth]) = true /\
  console (@run Sample.json w (map Tick [eighth; eighth; eighth])) = [] /\
  timeSincePollMs (signaler (@run Sample.json w (map Tick [eighth; eighth; eighth]))) =
    Single.of_Z 375.
Proof.
  cbv zeta. split; [reflexivity | split; [ | reflexivity]].
  exact (proj1 (@C4_idle_ticks_issue_no_fetch Sample.json
                  [Single.of_Z_exp 1 (-3); Single.of_Z_exp 1 (-3); Single.of_Z_exp 1 (-3)]
                  (begin_session Sample.started) eq_refl)).
Defined.

(** C5, as the specification words it, fails on the code: the empty
    candidate does not contain the separator, yet its payload "|0|audio"
    splits, empty fields removed, into "0" and "audio" only, and the
    dispatcher throws instead of handing ("", 0, "audio") to the peer. *)
Lemma C5_empty_candidate_is_lost :
  DotNet.Contains "" "|" = false /\
  DotNet.Contains "audio" "|" = false /\
  DotNet.Int32.InRange 0 = true /\
  Data (IceMessage "" 0 "audio") = "|0|audio" /\
  DotNet.Split "|0|audio" "|" = ["0"; "audio"] /\
  Dispatch (IceMessage "" 0 "audio") = ([], Threw FormatException) /\
  Dispatch (IceMessage "" 0 "audio") <> ([AddIceCandidate "" 0 "audio"], Returned tt).
Proof. repeat split; try reflexivity. vm_compute. discriminate. Qed.

(** C5 (amended). For every non-empty candidate and every non-empty mid,
    neither containing "|", and every line index in the range of [int], the
    message built by [OnIceCandiateReadyToSend], whose payload is
    candidate|index|mid with the separator "|", is dispatched on reception as
    exactly one [AddIceCandidate] carrying the original candidate, line index
    and mid. *)
Theorem C5_ice_fields_round_trip (candidate : string) (sdpMlineIndex : Z) (sdpMid : string) :
  DotNet.IsNullOrEmpty candidate = false ->
  DotNet.IsNullOrEmpty sdpMid = false ->
  DotNet.Contains candidate "|" = false ->
  DotNet.Contains sdpMid "|" = false ->
  DotNet.Int32.InRange sdpMlineIndex = true ->
  Dispatch (IceMessage candidate sdpMlineIndex sdpMid) =
    ([AddIceCandidate candidate sdpMlineIndex sdpMid], Returned tt).
Proof.
  intros Hcandidate Hmid Hnc Hnm Hrange.
  destruct (ToString_fields sdpMlineIndex) as [Hindex Hni].
  unfold Dispatch, IceMessage. cbn [MessageType Data IceDataSeparator].
  rewrite (Split_three "|" candidate (DotNet.Int32.ToString sdpMlineIndex) sdpMid)
    by assumption.
  unfold DotNet.Index. cbn [nth_error lift bind].
  rewrite (Parse_ToString sdpMlineIndex Hrange). reflexivity.
Qed.

Lemma C5_ice_fields_round_trip_witness :
  Data (IceMessage "candidate:1 1 UDP..." 0 "audio") = "candidate:1 1 UDP...|0|audio" /\
  Dispatch (IceMessage "candidate:1 1 UDP..." 0 "audio") =
    ([AddIceCandidate "candidate:1 1 UDP..." 0 "audio"], Returned tt).
Proof.
  split; [reflexivity | ].
  exact (C5_ice_fields_round_trip "candidate:1 1 UDP..." 0 "audio"
           eq_refl eq_refl eq_refl eq_refl eq_refl).
Defined.



(** C7. A received message whose type is none of Offer, Answer and Ice is
    printed and dropped: the console gets the line printed for every message
    and the "Unknown message" line, the native peer is not called, no
    exception escapes, and the guard goes up, so that the next tick above the
    interval fetches again. *)
Theorem C7_unrecognized_is_logged_and_dropped `{JsonUtility} (self : NodeDssSignaler)
    (www : UnityWebRequest) (msg : SignalerMessage) (value : Z) :
  isNetworkError www = false ->
  isHttpError www = false ->
  FromJson (downloadHandler_text www) = Returned (Some msg) ->
  MessageType msg = Unrecognized value ->
  CO_GetAndProcessFromServer_resumed self www =
    ([DebugLog ("Received SDP message: type=" ++ DotNet.Int32.ToString value
                  ++ " data=" ++ Data msg);
      DebugLog ("Unknown message: " ++ DotNet.Int32.ToString value ++ ": " ++ Data msg)],
     Returned (set_lastGetComplete self true)) /\
  filter IsNegotiationAction (fst (CO_GetAndProcessFromServer_resumed self www)) = [] /\
  forall deltaTime : Single.float,
    Single.leb (timeSincePollMs self) (PollTimeMs self) = false ->
    snd (Update (set_lastGetComplete self true) deltaTime) =
      [SendWebRequest "GET" (HttpServerAddress self ++ "data/" ++ LocalPeerId self) None].
Proof.
  intros Hnet Hhttp Hjson Htype.
  rewrite (resumed_on_message self www msg Hnet Hhttp Hjson).
  unfold Dispatch. rewrite Htype. cbn [WireMessageType_ToString perform fst].
  repeat split. apply polls_again.
Qed.

Lemma C7_unrecognized_is_logged_and_dropped_witness :
  @CO_GetAndProcessFromServer_resumed Sample.json Sample.at_650ms_in_flight
     (Sample.ok "Uhello") =
    ([DebugLog "Received SDP message: type=7 data=hello";
      DebugLog "Unknown message: 7: hello"],
     Returned Sample.at_650ms) /\
  snd (Update Sample.at_650ms Sample.quarter_second) =
    [SendWebRequest "GET" "http://127.0.0.1:3000/data/alice" None].
Proof.
  pose proof (@C7_unrecognized_is_logged_and_dropped Sample.json Sample.at_650ms_in_flight
                (Sample.ok "Uhello")
                {| MessageType := Unrecognized 7; Data := "hello"; IceDataSeparator := "" |}
                7 eq_refl eq_refl eq_refl eq_refl) as (Hresumed & _ & Hnext).
  split; [exact Hresumed | exact (Hnext Sample.quarter_second eq_refl)].
Defined.

(** C8. A fetch answered with "not found" (status 404, no network error)
    prints nothing, whatever [AutoLogErrors] is, calls nothing on the native
    peer, and puts the guard up. *)
Theorem C8_not_found_is_silent `{JsonUtility} (self : NodeDssSignaler)
    (www : UnityWebRequest) :
  isNetworkError www = false ->
  responseCode www = 404 ->
  CO_GetAndProcessFromServer_resumed self www = ([], Returned (set_lastGetComplete self true)) /\
  fetch_in_flight (set_lastGetComplete self true) = false.
Proof.
  intros Hnet Hcode. split; [ | reflexivity].
  rewrite resumed_on_error.
  - now rewrite Hnet, andb_false_r.
  - unfold isHttpError. rewrite Hcode. apply orb_true_r.
Qed.

Lemma C8_not_found_is_silent_witness :
  @CO_GetAndProcessFromServer_resumed Sample.json (signaler Sample.fetching) Sample.not_found =
    ([], Returned Sample.started) /\
  console (@step Sample.json Sample.fetching (GetCompleted Sample.not_found)) =
    console Sample.fetching.
Proof.
  split; [ | reflexivity].
  exact (proj1 (@C8_not_found_is_silent Sample.json (signaler Sample.fetching)
                  Sample.not_found eq_refl eq_refl)).
Defined.

(** C9, as the specification words it, fails on the code for a fetch: with
    [AutoLogErrors] set, a fetch answered with status 500, a non-success
    status, prints nothing at all. *)
Lemma C9_fetch_http_error_is_not_reported :
  AutoLogErrors Sample.started = true /\
  isNetworkError Sample.server_error = false /\
  responseCode Sample.server_error = 500 /\
  isHttpError Sample.server_error = true /\
  existsb IsDiagnostic
    (fst (@CO_GetAndProcessFromServer_resumed Sample.json Sample.started
            Sample.server_error)) = false.
Proof. repeat split. Qed.

(** C9 (amended). When a request completes with a network error or an
    error status: the coroutine of a publish prints one line with the error
    when [AutoLogErrors] is set and sends nothing again; the coroutine of a
    fetch prints one error line only when the error is a network error and
    [AutoLogErrors] is set, and prints nothing for an error status; no
    exception escapes either coroutine, the fetch puts the guard up, and the
    next tick that finds the accumulator above the interval sends the GET
    again. *)
Theorem C9_transport_errors_are_not_fatal `{JsonUtility} (self : NodeDssSignaler)
    (www : UnityWebRequest) :
  isNetworkError www || isHttpError www = true ->
  PostToServer_resumed self www =
    (if AutoLogErrors self
     then [DebugLog ("Failure sending message: " ++ error www)]
     else []) /\
  filter IsRequest (PostToServer_resumed self www) = [] /\
  CO_GetAndProcessFromServer_resumed self www =
    ((if AutoLogErrors self && isNetworkError www
      then [DebugLogError ("Network error trying to send data to "
                             ++ HttpServerAddress self ++ ": " ++ error www)]
      else []),
     Returned (set_lastGetComplete self true)) /\
  forall deltaTime : Single.float,
    Single.leb (timeSincePollMs self) (PollTimeMs self) = false ->
    snd (Update (set_lastGetComplete self true) deltaTime) =
      [SendWebRequest "GET" (HttpServerAddress self ++ "data/" ++ LocalPeerId self) None].
Proof.
  intros Herr. repeat split.
  - unfold PostToServer_resumed. rewrite Herr, andb_true_r. reflexivity.
  - unfold PostToServer_resumed. rewrite Herr, andb_true_r.
    now destruct (AutoLogErrors self).
  - now apply resumed_on_error.
  - apply polls_again.
Qed.

Lemma C9_transport_errors_are_not_fatal_witness :
  PostToServer_resumed Sample.started Sample.server_error =
    [DebugLog "Failure sending message: HTTP/1.1 500 Internal Server Error"] /\
  @CO_GetAndProcessFromServer_resumed Sample.json Sample.at_650ms_in_flight
     Sample.unreachable =
    ([DebugLogError
        "Network error trying to send data to http://127.0.0.1:3000/: Cannot connect to destination host"],
     Returned Sample.at_650ms) /\
  snd (Update Sample.at_650ms Sample.quarter_second) =
    [SendWebRequest "GET" "http://127.0.0.1:3000/data/alice" None].
Proof.
  split; [ | split].
  - exact (proj1 (@C9_transport_errors_are_not_fatal Sample.json Sample.started
                    Sample.server_error eq_refl)).
  - exact (proj1 (proj2 (proj2 (@C9_transport_errors_are_not_fatal Sample.json
                                  Sample.at_650ms_in_flight Sample.unreachable eq_refl)))).
  - exact (proj2 (proj2 (proj2 (@C9_transport_errors_are_not_fatal Sample.json
                                  Sample.at_650ms_in_flight Sample.unreachable eq_refl)))
             Sample.quarter_second eq_refl).
Defined.

(** C10, as worded, fails on the code: an address configured with two
    slashes at its end is not empty and ends with "/", so [Start] leaves it
    as it is, and the GET then goes to an URL with two slashes between the
    base and the path, which is not of the shape base, one slash, path. *)
Lemma C10_trailing_slashes_are_kept :
  let self := set_HttpServerAddress Sample.configured "http://h//" in
  Start self "device-1" = Returned self /\
  TrailingCount (HttpServerAddress self) "/" = 2%nat /\
  CO_GetAndProcessFromServer self = [SendWebRequest "GET" "http://h//data/alice" None] /\
  ~ one_slash_url "http://h//data/alice".
Proof.
  cbv zeta. repeat split.
  intros (base & peer & Hbase & Hurl).
  repeat (destruct base as [ | ? base];
          [ simpl in Hurl; try discriminate Hurl; simpl in Hbase; discriminate Hbase
          | simpl in Hurl; injection Hurl as Hchar Hurl; subst ]).
  destruct base; discriminate Hurl.
Qed.

(** C10 (amended). When [Start] returns, the server address ends with "/":
    it is the configured address, with one "/" appended if and only if it did
    not end with one, and nothing else of it is changed, so that the slashes
    at its end are one if there was none and as many as were configured
    otherwise. From then on no event changes the address, and every request
    ever sent goes to the address followed by "data/" and a peer identifier:
    the local one for a GET, the remote one for a POST. When the configured
    address ends with at most one slash, every such URL is a base that does
    not end with a slash, exactly one slash, and the path. *)
Theorem C10_address_ends_with_slash `{JsonUtility} (self self' : NodeDssSignaler)
    (deviceUniqueIdentifier : string) :
  Start self deviceUniqueIdentifier = Returned self' ->
  DotNet.EndsWithChar (HttpServerAddress self') "/" = true /\
  (exists base, HttpServerAddress self' = base ++ "/") /\
  HttpServerAddress self' =
    (if DotNet.EndsWithChar (HttpServerAddress self) "/"
     then HttpServerAddress self
     else HttpServerAddress self ++ "/") /\
  TrailingCount (HttpServerAddress self') "/" =
    Nat.max 1 (TrailingCount (HttpServerAddress self) "/") /\
  forall evs : list Event,
    let w := run (begin_session self') evs in
    HttpServerAddress (signaler w) = HttpServerAddress self' /\
    Forall (addressed self') (console w) /\
    ((TrailingCount (HttpServerAddress self) "/" <= 1)%nat ->
       Forall one_slash_request (console w)).
Proof.
  intros Hstart.
  assert (HttpServerAddress self' =
            (if DotNet.EndsWithChar (HttpServerAddress self) "/"
             then HttpServerAddress self
             else HttpServerAddress self ++ "/")) as Haddress.
  { unfold Start in Hstart.
    destruct (DotNet.IsNullOrEmpty (HttpServerAddress self)); [discriminate | ].
    destruct (DotNet.EndsWithChar (HttpServerAddress self) "/");
      destruct (DotNet.IsNullOrEmpty (LocalPeerId _));
      injection Hstart as <-; reflexivity. }
  assert (DotNet.EndsWithChar (HttpServerAddress self') "/" = true) as Hends.
  { rewrite Haddress.
    destruct (DotNet.EndsWithChar (HttpServerAddress self) "/") eqn:Hconfigured;
      [assumption | apply EndsWithChar_append]. }
  assert (TrailingCount (HttpServerAddress self') "/" =
            Nat.max 1 (TrailingCount (HttpServerAddress self) "/")) as Hcount.
  { rewrite Haddress.
    destruct (DotNet.EndsWithChar (HttpServerAddress self) "/") eqn:Hconfigured.
    - pose proof (TrailingCount_some _ _ Hconfigured). lia.
    - rewrite TrailingCount_append, (TrailingCount_none _ _ Hconfigured). reflexivity. }
  split; [exact Hends | split; [now apply EndsWithChar_stem | split; [exact Haddress | ]]].
  split; [exact Hcount | ].
  intros evs w.
  assert (Forall (addressed self') (console w)) as Hall
    by (apply run_addressed; [apply same_configuration_refl | constructor]).
  split; [ | split; [exact Hall | ]].
  - destruct (run_configuration evs (begin_session self')) as (_ & _ & _ & Hsame & _).
    symmetry. exact Hsame.
  - intros Hfew. apply (addressed_one_slash self'); [lia | exact Hall].
Qed.

Lemma C10_address_ends_with_slash_witness :
  Start Sample.configured "device-1" = Returned Sample.started /\
  HttpServerAddress Sample.configured = "http://127.0.0.1:3000" /\
  HttpServerAddress Sample.started = "http://127.0.0.1:3000/" /\
  Forall one_slash_request
    (console (@run Sample.json (begin_session Sample.started)
                [SdpOfferReady "v=0"; Tick Sample.quarter_second])).
Proof.
  split; [reflexivity | split; [reflexivity | split; [reflexivity | ]]].
  refine (proj2 (proj2 (proj2 (proj2 (proj2 (proj2
           (@C10_address_ends_with_slash Sample.json Sample.configured Sample.started
              "device-1" eq_refl))))
           [SdpOfferReady "v=0"; Tick Sample.quarter_second])) _).
  vm_compute. auto.
Defined.


(** * Further properties of the signaler *)

(** ** [Start] *)

Lemma EndsWithChar_not_empty (s : string) (c : ascii) :
  DotNet.EndsWithChar s c = true -> DotNet.IsNullOrEmpty s = false.
Proof. destruct s; [discriminate | reflexivity]. Qed.

Lemma set_LocalPeerId_same (self : NodeDssSignaler) :
  set_LocalPeerId self (LocalPeerId self) = self.
Proof. now destruct self. Qed.

(** What [Start] returns, when it returns. *)
Lemma Start_returned (self self' : NodeDssSignaler) (deviceUniqueIdentifier : string) :
  Start self deviceUniqueIdentifier = Returned self' ->
  DotNet.IsNullOrEmpty (HttpServerAddress self) = false /\
  self' =
    set_LocalPeerId
      (set_HttpServerAddress self
         (if DotNet.EndsWithChar (HttpServerAddress self) "/"
          then HttpServerAddress self
          else HttpServerAddress self ++ "/"))
      (if DotNet.IsNullOrEmpty (LocalPeerId self)
       then deviceUniqueIdentifier
       else LocalPeerId self).
Proof.
  unfold Start.
  destruct (DotNet.IsNullOrEmpty (HttpServerAddress self)); [discriminate | ].
  destruct (DotNet.EndsWithChar (HttpServerAddress self) "/"); simpl;
    destruct (DotNet.IsNullOrEmpty (LocalPeerId self)) eqn:Hid; simpl;
    rewrite ?Hid; intros [= <-]; split; try reflexivity; now destruct self.
Qed.

(** X1. [Start] fails exactly for a null or empty server address, with an
    [ArgumentNullException] naming the field. When it returns, the local
    peer identifier is the configured one, or the device identifier if none
    was configured, hence non-empty whenever the device has an identifier;
    the remote peer, the logging switch, the poll interval, the accumulator
    and the guard are as they were. *)
Theorem X1_Start_outcome (self : NodeDssSignaler) (deviceUniqueIdentifier : string) :
  (DotNet.IsNullOrEmpty (HttpServerAddress self) = true ->
     Start self deviceUniqueIdentifier = Threw (ArgumentNullException "HttpServerAddress")) /\
  (DotNet.IsNullOrEmpty (HttpServerAddress self) = false ->
     exists self',
       Start self deviceUniqueIdentifier = Returned self' /\
       LocalPeerId self' =
         (if DotNet.IsNullOrEmpty (LocalPeerId self)
          then deviceUniqueIdentifier
          else LocalPeerId self) /\
       (DotNet.IsNullOrEmpty deviceUniqueIdentifier = false ->
          DotNet.IsNullOrEmpty (LocalPeerId self') = false) /\
       RemotePeerId self' = RemotePeerId self /\
       AutoLogErrors self' = AutoLogErrors self /\
       PollTimeMs self' = PollTimeMs self /\
       timeSincePollMs self' = timeSincePollMs self /\
       lastGetComplete self' = lastGetComplete self).
Proof.
  split; intros Haddress.
  - unfold Start. now rewrite Haddress.
  - destruct (Start self deviceUniqueIdentifier) as [self' | e] eqn:Hstart.
    + exists self'. split; [reflexivity | ].
      apply Start_returned in Hstart as [_ ->]. cbn.
      repeat split.
      intros Hdevice. destruct (DotNet.IsNullOrEmpty (LocalPeerId self)) eqn:Hid; assumption.
    + unfold Start in Hstart. rewrite Haddress in Hstart. discriminate.
Qed.

Lemma X1_Start_outcome_witness :
  Start (set_HttpServerAddress NewNodeDssSignaler "") "device-1" =
    Threw (ArgumentNullException "HttpServerAddress") /\
  exists self',
    Start NewNodeDssSignaler "device-1" = Returned self' /\ LocalPeerId self' = "device-1".
Proof.
  split.
  - exact (proj1 (X1_Start_outcome (set_HttpServerAddress NewNodeDssSignaler "") "device-1")
             eq_refl).
  - destruct (proj2 (X1_Start_outcome NewNodeDssSignaler "device-1") eq_refl)
      as (self' & Hstart & Hid & _).
    exists self'. split; [exact Hstart | exact Hid].
Defined.

(** X2. [Start] is idempotent: run again on the signaler it returned, with
    the same device identifier, it returns that signaler unchanged; no
    second "/" is appended. *)
Theorem X2_Start_idempotent (self self' : NodeDssSignaler) (deviceUniqueIdentifier : string) :
  Start self deviceUniqueIdentifier = Returned self' ->
  Start self' deviceUniqueIdentifier = Returned self'.
Proof.
  intros Hstart. apply Start_returned in Hstart as [Haddress Hself'].
  assert (DotNet.EndsWithChar (HttpServerAddress self') "/" = true) as Hends.
  { subst self'. cbn.
    destruct (DotNet.EndsWithChar (HttpServerAddress self) "/") eqn:Hconfigured;
      [assumption | apply EndsWithChar_append]. }
  assert (LocalPeerId self' =
            (if DotNet.IsNullOrEmpty (LocalPeerId self)
             then deviceUniqueIdentifier else LocalPeerId self)) as Hid
    by (subst self'; reflexivity).
  unfold Start.
  rewrite (EndsWithChar_not_empty _ _ Hends), Hends. cbn [negb].
  destruct (DotNet.IsNullOrEmpty (LocalPeerId self')) eqn:Hempty; [ | reflexivity].
  f_equal.
  destruct (DotNet.IsNullOrEmpty (LocalPeerId self)) eqn:Hconfigured.
  - rewrite <- Hid. apply set_LocalPeerId_same.
  - rewrite Hid in Hempty. congruence.
Qed.

Lemma X2_Start_idempotent_witness :
  Start Sample.configured "device-1" = Returned Sample.started /\
  Start Sample.started "device-1" = Returned Sample.started.
Proof.
  split; [reflexivity | ].
  exact (X2_Start_idempotent Sample.configured Sample.started "device-1" eq_refl).
Defined.

(** ** Requests along a session *)

Lemma count_posts_app (a b : list Effect) :
  count_posts (a ++ b) = (count_posts a + count_posts b)%nat.
Proof. unfold count_posts. now rewrite filter_app, length_app. Qed.

Lemma no_request_count_posts (out : list Effect) :
  Forall (fun e => IsRequest e = false) out -> count_posts out = 0%nat.
Proof.
  unfold count_posts. induction 1 as [ | e out He _ IH]; [reflexivity | ].
  simpl. destruct e; simpl in *; try discriminate; assumption.
Qed.

Lemma Update_count_posts (self : NodeDssSignaler) (deltaTime : Single.float) :
  count_posts (snd (Update self deltaTime)) = 0%nat.
Proof. destruct (Update_case self deltaTime); reflexivity. Qed.

Lemma step_count_posts `{JsonUtility} (w : Session) (ev : Event) :
  count_posts (console (step w ev)) =
    (count_posts (console w) + (if IsPublishEvent ev then 1 else 0))%nat.
Proof.
  destruct ev as [dt | www | www | c i mid | offer | answer]; simpl;
    rewrite ?count_posts_app; try reflexivity.
  - pose proof (Update_count_posts (signaler w) dt) as Hnone.
    destruct (Update (signaler w) dt) as [self out]. simpl in *.
    now rewrite count_posts_app, Hnone.
  - destruct (pendingGet w); [now rewrite Nat.add_0_r | ].
    pose proof (resumed_no_request (signaler w) www) as Hnone.
    destruct (CO_GetAndProcessFromServer_resumed (signaler w) www) as [out [self | e]];
      simpl in *; rewrite ?count_posts_app, (no_request_count_posts _ Hnone); reflexivity.
  - destruct (pendingPost w); [now rewrite Nat.add_0_r | ]. simpl.
    now rewrite count_posts_app,
      (no_request_count_posts _ (PostToServer_resumed_no_request _ www)).
Qed.

(** X3. Along every session, the number of POSTs sent is the number of
    events raised by the native peer: each offer, answer or candidate is
    published exactly once, at once, whatever the state of the poll and of
    the other publishes; no tick and no completion, failed or not, sends a
    POST. *)
Theorem X3_one_post_per_native_event `{JsonUtility} (evs : list Event) (w : Session) :
  count_posts (console (run w evs)) =
    (count_posts (console w) + List.length (filter IsPublishEvent evs))%nat.
Proof.
  revert w. induction evs as [ | ev evs IH]; intros w; simpl.
  - now rewrite Nat.add_0_r.
  - rewrite IH, step_count_posts. destruct (IsPublishEvent ev); simpl; lia.
Qed.

Lemma step_count_gets `{JsonUtility} (w : Session) (ev : Event) :
  (count_gets (console (step w ev)) + pendingGet w <=
   count_gets (console w) + pendingGet (step w ev)
   + (if IsGetCompleted ev then 1 else 0))%nat.
Proof.
  destruct ev as [dt | www | www | c i mid | offer | answer]; simpl;
    rewrite ?count_gets_app; simpl; try lia.
  - destruct (Update (signaler w) dt) as [self out]. simpl.
    rewrite count_gets_app. lia.
  - destruct (pendingGet w) as [ | n] eqn:Hn; [lia | ].
    pose proof (resumed_no_request (signaler w) www) as Hnone.
    destruct (CO_GetAndProcessFromServer_resumed (signaler w) www) as [out [self | e]];
      simpl in *; rewrite ?count_gets_app, (no_request_count_gets _ Hnone);
      unfold count_gets; simpl; lia.
  - destruct (pendingPost w); [lia | ]. simpl.
    rewrite count_gets_app,
      (no_request_count_gets _ (PostToServer_resumed_no_request _ www)). lia.
  - unfold count_gets at 2. simpl. lia.
  - unfold count_gets at 2. simpl. lia.
  - unfold count_gets at 2. simpl. lia.
Qed.

Lemma run_count_gets `{JsonUtility} (evs : list Event) (w : Session) :
  (count_gets (console (run w evs)) + pendingGet w <=
   count_gets (console w) + pendingGet (run w evs)
   + List.length (filter IsGetCompleted evs))%nat.
Proof.
  revert w. induction evs as [ | ev evs IH]; intros w; simpl; [lia | ].
  pose proof (IH (step w ev)) as Hrest. pose proof (step_count_gets w ev) as Hstep.
  destruct (IsGetCompleted ev); simpl; lia.
Qed.

(** X4. Along every session that starts with the guard up, the number of
    GETs sent is at most one more than the number of completions of GETs:
    the signaler never has sent a second GET before the first one has
    completed, however many ticks go by. *)
Theorem X4_gets_bounded_by_completions `{JsonUtility} (self : NodeDssSignaler)
    (evs : list Event) :
  lastGetComplete self = true ->
  (count_gets (console (run (begin_session self) evs)) <=
   S (List.length (filter IsGetCompleted evs)))%nat.
Proof.
  intros Hup.
  assert (guarded (run (begin_session self) evs)) as [Hle _].
  { apply run_guarded. split; simpl; auto with arith. }
  pose proof (run_count_gets evs (begin_session self)) as Hcount.
  simpl in Hcount. change (count_gets []) with 0%nat in Hcount. lia.
Qed.

Lemma X4_gets_bounded_by_completions_witness :
  lastGetComplete Sample.at_650ms = true /\
  (count_gets
     (console
        (@run Sample.json (begin_session Sample.at_650ms)
           [Tick Sample.quarter_second; Tick Sample.quarter_second;
            Tick Sample.quarter_second])) <= 1)%nat.
Proof.
  split; [reflexivity | ].
  exact (@X4_gets_bounded_by_completions Sample.json Sample.at_650ms
           [Tick Sample.quarter_second; Tick Sample.quarter_second;
            Tick Sample.quarter_second] eq_refl).
Defined.

(** ** Exceptions in the fetch coroutine *)

(** X5. In every session that starts with the guard up, if the coroutine of
    the outstanding fetch is resumed and an exception escapes it, whatever
    the exception and whatever made it, the guard stays down for ever: after
    any further events no new GET has been sent. *)
Theorem X5_escaped_exception_stops_polling `{JsonUtility} (self : NodeDssSignaler)
    (before after : list Event) (www : UnityWebRequest) (e : Exception) :
  lastGetComplete self = true ->
  let w := run (begin_session self) before in
  pendingGet w = 1%nat ->
  snd (CO_GetAndProcessFromServer_resumed (signaler w) www) = Threw e ->
  let w' := run (step w (GetCompleted www)) after in
  fetch_in_flight (signaler w') = true /\
  pendingGet w' = 0%nat /\
  count_gets (console w') = count_gets (console w).
Proof.
  intros Hup w Hpending Hthrew w'.
  assert (guarded w) as [_ Hzero].
  { apply run_guarded. split; simpl; auto with arith. }
  assert (lastGetComplete (signaler w) = false) as Hdown.
  { destruct (lastGetComplete (signaler w)); [ | reflexivity].
    specialize (Hzero eq_refl). congruence. }
  assert (lastGetComplete (signaler (step w (GetCompleted www))) = false /\
          pendingGet (step w (GetCompleted www)) = 0%nat /\
          count_gets (console (step w (GetCompleted www))) = count_gets (console w))
    as (Hdown' & Hnone & Hsame).
  { simpl. rewrite Hpending.
    pose proof (resumed_no_request (signaler w) www) as Hquiet.
    destruct (CO_GetAndProcessFromServer_resumed (signaler w) www) as [out [s | e']];
      simpl in *; [discriminate | ].
    repeat split; [assumption | ].
    rewrite !count_gets_app, (no_request_count_gets _ Hquiet).
    unfold count_gets. simpl. lia. }
  destruct (run_stalled after _ Hdown' Hnone) as (Hflag & Hnone' & Hcount).
  fold w' in Hflag, Hnone', Hcount. unfold fetch_in_flight.
  rewrite Hflag, Hnone', Hcount, Hsame. repeat split.
Qed.

Lemma X5_escaped_exception_stops_polling_witness :
  count_gets
    (console
       (@run Sample.json (begin_session Sample.at_650ms)
          [Tick Sample.quarter_second; GetCompleted Sample.short_ice;
           Tick Sample.quarter_second; Tick Sample.quarter_second;
           Tick Sample.quarter_second; Tick Sample.quarter_second])) = 1%nat.
Proof.
  exact (proj2 (proj2
           (@X5_escaped_exception_stops_polling Sample.json Sample.at_650ms
              [Tick Sample.quarter_second]
              [Tick Sample.quarter_second; Tick Sample.quarter_second;
               Tick Sample.quarter_second; Tick Sample.quarter_second]
              Sample.short_ice IndexOutOfRangeException
              eq_refl eq_refl eq_refl))).
Defined.

(** On a native peer that accepts every call the coroutine is the one of
    the claims. *)
Lemma Dispatch_on_accepting `{NativePeer} (msg : SignalerMessage) :
  (forall e, Invoke e = Returned tt) -> Dispatch_on msg = Dispatch msg.
Proof.
  intros Haccepts. unfold Dispatch_on, Dispatch, call, perform.
  destruct (MessageType msg); rewrite ?Haccepts; try reflexivity.
  destruct (DotNet.Split (Data msg) (IceDataSeparator msg)) as [ | p0 [ | p1 [ | p2 parts]]];
    unfold DotNet.Index; simpl; try reflexivity;
    destruct (DotNet.Int32.Parse p1) as [i | e1]; simpl; rewrite ?Haccepts; reflexivity.
Qed.

Lemma resumed_on_accepting `{JsonUtility} `{NativePeer} (self : NodeDssSignaler)
    (www : UnityWebRequest) :
  (forall e, Invoke e = Returned tt) ->
  CO_GetAndProcessFromServer_resumed_on self www =
    CO_GetAndProcessFromServer_resumed self www.
Proof.
  intros Haccepts.
  unfold CO_GetAndProcessFromServer_resumed_on, CO_GetAndProcessFromServer_resumed.
  destruct (negb (isNetworkError www) && negb (isHttpError www)); [ | reflexivity].
  destruct (FromJson (downloadHandler_text www)) as [[msg | ] | e]; try reflexivity.
  simpl. now rewrite (Dispatch_on_accepting msg Haccepts).
Qed.




(** X7. A response that deserialises to [null] is dropped: one error line
    with the text received when [AutoLogErrors] is set, nothing otherwise,
    no call on the native peer, no exception, and the guard goes up. *)
Theorem X7_null_message_is_dropped `{JsonUtility} (self : NodeDssSignaler)
    (www : UnityWebRequest) :
  isNetworkError www = false ->
  isHttpError www = false ->
  FromJson (downloadHandler_text www) = Returned None ->
  CO_GetAndProcessFromServer_resumed self www =
    ((if AutoLogErrors self
      then [DebugLogError ("Failed to deserialize JSON message : "
                             ++ downloadHandler_text www)]
      else []),
     Returned (set_lastGetComplete self true)).
Proof.
  intros Hnet Hhttp Hjson. unfold CO_GetAndProcessFromServer_resumed.
  rewrite Hnet, Hhttp, Hjson. simpl. now destruct (AutoLogErrors self).
Qed.

Lemma X7_null_message_is_dropped_witness :
  @CO_GetAndProcessFromServer_resumed Sample.json Sample.at_650ms_in_flight (Sample.ok "") =
    ([DebugLogError "Failed to deserialize JSON message : "], Returned Sample.at_650ms).
Proof.
  exact (@X7_null_message_is_dropped Sample.json Sample.at_650ms_in_flight (Sample.ok "")
           eq_refl eq_refl eq_refl).
Defined.

(** ** The payload of an Ice message *)

(** X8. An Ice message is handed to the native peer exactly when its
    payload splits into at least three non-empty fields of which the second
    parses as an [int]; the candidate is then the first field, the line index
    the number, the mid the third field, and every further field is
    ignored. *)
Theorem X8_ice_accepted_iff (msg : SignalerMessage) (out : list Effect) :
  MessageType msg = Ice ->
  (Dispatch msg = (out, Returned tt) <->
   exists p0 p1 p2 rest i,
     DotNet.Split (Data msg) (IceDataSeparator msg) = p0 :: p1 :: p2 :: rest /\
     DotNet.Int32.Parse p1 = Returned i /\
     out = [AddIceCandidate p0 i p2]).
Proof.
  intros Htype. unfold Dispatch. rewrite Htype. split.
  - destruct (DotNet.Split (Data msg) (IceDataSeparator msg)) as [ | p0 [ | p1 [ | p2 rest]]];
      unfold DotNet.Index; simpl;
      try destruct (DotNet.Int32.Parse p1) as [i | e] eqn:Hparse; simpl;
      intros Heq; inversion Heq; subst.
    now exists p0, p1, p2, rest, i.
  - intros (p0 & p1 & p2 & rest & i & Hparts & Hparse & ->).
    rewrite Hparts. unfold DotNet.Index. simpl. now rewrite Hparse.
Qed.

Lemma X8_ice_accepted_iff_witness :
  Dispatch {| MessageType := Ice; Data := "a;-3;b;c;d"; IceDataSeparator := ";" |} =
    ([AddIceCandidate "a" (-3) "b"], Returned tt).
Proof.
  apply (proj2 (X8_ice_accepted_iff
                  {| MessageType := Ice; Data := "a;-3;b;c;d"; IceDataSeparator := ";" |}
                  [AddIceCandidate "a" (-3) "b"] eq_refl)).
  exists "a", "-3", "b", ["c"; "d"], (-3). repeat split.
Defined.

(** A first field ends at the first separator. *)
Lemma Split_first (b : ascii) (x rest : string) :
  DotNet.IsNullOrEmpty x = false ->
  DotNet.Contains x (String b "") = false ->
  DotNet.Split (x ++ String b rest) (String b "") = x :: DotNet.Split rest (String b "").
Proof.
  intros Hx Hnx. unfold DotNet.Split.
  rewrite (SplitPieces_first b x rest Hnx). simpl. now rewrite Hx.
Qed.

(** X9. A separator inside the candidate goes undetected and shifts the
    fields: for a candidate made of a non-empty part without "|", then "|",
    then a number, the receiving peer is given the part as candidate, that
    number as line index and the printed line index as mid, whatever the
    real line index and mid are. *)
Theorem X9_separator_in_candidate_shifts_fields (part : string) (number : Z)
    (sdpMlineIndex : Z) (sdpMid : string) :
  DotNet.IsNullOrEmpty part = false ->
  DotNet.Contains part "|" = false ->
  DotNet.Int32.InRange number = true ->
  Dispatch (IceMessage (part ++ "|" ++ DotNet.Int32.ToString number) sdpMlineIndex sdpMid) =
    ([AddIceCandidate part number (DotNet.Int32.ToString sdpMlineIndex)], Returned tt).
Proof.
  intros Hpart Hnp Hrange.
  destruct (ToString_fields number) as [Hnumber Hnn].
  destruct (ToString_fields sdpMlineIndex) as [Hindex Hni].
  unfold Dispatch, IceMessage. cbn [MessageType Data IceDataSeparator].
  rewrite !append_assoc.
  change ("|" ++ DotNet.Int32.ToString number ++ "|" ++
            DotNet.Int32.ToString sdpMlineIndex ++ "|" ++ sdpMid)
    with (String "|" (DotNet.Int32.ToString number ++
            String "|" (DotNet.Int32.ToString sdpMlineIndex ++ String "|" sdpMid))).
  rewrite (Split_first "|" part _ Hpart Hnp), (Split_first "|" _ _ Hnumber Hnn),
    (Split_first "|" _ _ Hindex Hni).
  unfold DotNet.Index. cbn [nth_error lift bind].
  rewrite (Parse_ToString number Hrange). reflexivity.
Qed.

Lemma X9_separator_in_candidate_shifts_fields_witness :
  Dispatch (IceMessage "candidate:1|7" 0 "audio") =
    ([AddIceCandidate "candidate:1" 7 "0"], Returned tt).
Proof.
  exact (X9_separator_in_candidate_shifts_fields "candidate:1" 7 0 "audio"
           eq_refl eq_refl eq_refl).
Defined.

(** X10. A separator inside the mid goes undetected and cuts the mid: with a
    candidate and a line index as in the round trip, and a mid whose first
    "|" comes after a non-empty part, the receiving peer is given that part
    as mid, and what follows is lost. *)
Theorem X10_separator_in_mid_cuts_mid (candidate : string) (sdpMlineIndex : Z)
    (part lost : string) :
  DotNet.IsNullOrEmpty candidate = false ->
  DotNet.Contains candidate "|" = false ->
  DotNet.Int32.InRange sdpMlineIndex = true ->
  DotNet.IsNullOrEmpty part = false ->
  DotNet.Contains part "|" = false ->
  Dispatch (IceMessage candidate sdpMlineIndex (part ++ "|" ++ lost)) =
    ([AddIceCandidate candidate sdpMlineIndex part], Returned tt).
Proof.
  intros Hcandidate Hnc Hrange Hpart Hnp.
  destruct (ToString_fields sdpMlineIndex) as [Hindex Hni].
  unfold Dispatch, IceMessage. cbn [MessageType Data IceDataSeparator].
  change (candidate ++ "|" ++ DotNet.Int32.ToString sdpMlineIndex ++ "|" ++
            part ++ "|" ++ lost)
    with (candidate ++ String "|" (DotNet.Int32.ToString sdpMlineIndex ++
            String "|" (part ++ String "|" lost))).
  rewrite (Split_first "|" candidate _ Hcandidate Hnc), (Split_first "|" _ _ Hindex Hni),
    (Split_first "|" part _ Hpart Hnp).
  unfold DotNet.Index. cbn [nth_error lift bind].
  rewrite (Parse_ToString sdpMlineIndex Hrange). reflexivity.
Qed.

Lemma X10_separator_in_mid_cuts_mid_witness :
  Dispatch (IceMessage "candidate:1 1 UDP..." 0 "au|dio") =
    ([AddIceCandidate "candidate:1 1 UDP..." 0 "au"], Returned tt).
Proof.
  exact (X10_separator_in_mid_cuts_mid "candidate:1 1 UDP..." 0 "au" "dio"
           eq_refl eq_refl eq_refl eq_refl eq_refl).
Defined.

(** ** The tick after a poll *)

(** X11. After a tick that polled, the accumulator is zero. If the fetch is
    completed before the next tick, that tick only accumulates when the poll
    interval is zero or more, so that two ticks in a row never both poll;
    with an interval that is negative or not a number it polls again at
    once. *)
Theorem X11_tick_after_completed_poll (self : NodeDssSignaler)
    (deltaTime deltaTime' : Single.float) :
  snd (Update self deltaTime) <> [] ->
  let completed := set_lastGetComplete (fst (Update self deltaTime)) true in
  timeSincePollMs completed = Single.zero /\
  (Single.leb Single.zero (PollTimeMs self) = true ->
     Update completed deltaTime' =
       (set_timeSincePollMs completed
          (Single.add Single.zero (Single.mul deltaTime' (Single.of_Z 1000))), [])) /\
  (Single.leb Single.zero (PollTimeMs self) = false ->
     Update completed deltaTime' =
       (set_lastGetComplete completed false,
        [SendWebRequest "GET" (HttpServerAddress self ++ "data/" ++ LocalPeerId self) None])).
Proof.
  intros Hpolled.
  destruct (Update_case self deltaTime) as [Hacc | Hacc Hflag | Hacc Hflag];
    try (exfalso; now apply Hpolled).
  cbn [fst]. cbv zeta. split; [reflexivity | split]; intros Hinterval.
  - now rewrite Update_accumulating.
  - now rewrite Update_polling.
Qed.

Lemma X11_tick_after_completed_poll_witness :
  Update
    (set_lastGetComplete (fst (Update Sample.at_650ms Sample.quarter_second)) true)
    Sample.quarter_second =
  (set_timeSincePollMs Sample.started (Single.of_Z 250), []).
Proof.
  refine (eq_trans
            (proj1 (proj2 (X11_tick_after_completed_poll Sample.at_650ms
                             Sample.quarter_second Sample.quarter_second _))
               eq_refl) eq_refl).
  discriminate.
Defined.

(** ** What a completed request never does *)

Lemma no_request_filter (out : list Effect) :
  Forall (fun e => IsRequest e = false) out -> filter IsRequest out = [].
Proof.
  induction 1 as [ | e out He _ IH]; [reflexivity | ]. simpl. now rewrite He.
Qed.

(** X12. Resuming a coroutine with its completed request never sends a
    request, whatever the response and the message in it: a failed or
    successful publish is not sent again, a fetch is not repeated at once,
    and the answer to a received offer is not published by the fetch
    coroutine itself. Requests are sent by ticks and by the events of the
    native peer only. *)
Theorem X12_completions_send_nothing `{JsonUtility} (self : NodeDssSignaler)
    (www : UnityWebRequest) :
  filter IsRequest (fst (CO_GetAndProcessFromServer_resumed self www)) = [] /\
  filter IsRequest (PostToServer_resumed self www) = [].
Proof.
  split; apply no_request_filter.
  - apply resumed_no_request.
  - apply PostToServer_resumed_no_request.
Qed.

(** ** Two peers *)



(** The fields of the payload of [OnIceCandiateReadyToSend], split again. *)
Lemma IceMessage_parts (candidate : string) (sdpMlineIndex : Z) (sdpMid : string) :
  DotNet.IsNullOrEmpty candidate = false ->
  DotNet.IsNullOrEmpty sdpMid = false ->
  DotNet.Contains candidate "|" = false ->
  DotNet.Contains sdpMid "|" = false ->
  DotNet.Split (Data (IceMessage candidate sdpMlineIndex sdpMid))
    (IceDataSeparator (IceMessage candidate sdpMlineIndex sdpMid)) =
    [candidate; DotNet.Int32.ToString sdpMlineIndex; sdpMid].
Proof.
  intros Hcandidate Hmid Hnc Hnm.
  destruct (ToString_fields sdpMlineIndex) as [Hindex Hni].
  now apply (Split_three "|").
Qed.

(** X14. A candidate between two signalers on the same server, the sender
    with the receiver as remote peer, for a JSON that reads back the message
    it writes: the sender posts the candidate to the URL that the receiver
    polls, and the receiver, resumed with that body, hands the native peer
    the candidate, line index and mid that the sender was given (non-empty
    candidate and mid without "|", line index in the range of [int]). *)
Theorem X14_candidate_reaches_remote_peer `{JsonUtility} (sender receiver : NodeDssSignaler)
    (candidate : string) (sdpMlineIndex : Z) (sdpMid : string) (www : UnityWebRequest) :
  HttpServerAddress sender = HttpServerAddress receiver ->
  RemotePeerId sender = LocalPeerId receiver ->
  DotNet.IsNullOrEmpty candidate = false ->
  DotNet.IsNullOrEmpty sdpMid = false ->
  DotNet.Contains candidate "|" = false ->
  DotNet.Contains sdpMid "|" = false ->
  DotNet.Int32.InRange sdpMlineIndex = true ->
  let msg := IceMessage candidate sdpMlineIndex sdpMid in
  FromJson (ToJson msg) = Returned (Some msg) ->
  isNetworkError www = false ->
  isHttpError www = false ->
  downloadHandler_text www = ToJson msg ->
  let url := HttpServerAddress receiver ++ "data/" ++ LocalPeerId receiver in
  OnIceCandiateReadyToSend sender candidate sdpMlineIndex sdpMid =
    [SendWebRequest "POST" url (Some (ToJson msg))] /\
  CO_GetAndProcessFromServer receiver = [SendWebRequest "GET" url None] /\
  CO_GetAndProcessFromServer_resumed receiver www =
    ([received_line msg; AddIceCandidate candidate sdpMlineIndex sdpMid],
     Returned (set_lastGetComplete receiver true)).
Proof.
  intros Hserver Hpeer Hcandidate Hmid Hnc Hnm Hrange msg Hjson Hnet Hhttp Hbody url.
  subst url. unfold OnIceCandiateReadyToSend, PostToServer, CO_GetAndProcessFromServer.
  fold msg. rewrite Hserver, Hpeer. repeat split.
  rewrite <- Hbody in Hjson.
  rewrite (resumed_on_message receiver www msg Hnet Hhttp Hjson).
  assert (Dispatch msg = ([AddIceCandidate candidate sdpMlineIndex sdpMid], Returned tt))
    as ->; [ | reflexivity].
  unfold Dispatch. subst msg.
  rewrite (IceMessage_parts candidate sdpMlineIndex sdpMid) by assumption.
  cbn [IceMessage MessageType]. unfold DotNet.Index. cbn [nth_error lift bind].
  now rewrite (Parse_ToString sdpMlineIndex Hrange).
Qed.

Lemma X14_candidate_reaches_remote_peer_witness :
  @OnIceCandiateReadyToSend Sample.json Sample.alice "candidate:1 1 UDP..." 0 "audio" =
    [SendWebRequest "POST" "http://127.0.0.1:3000/data/bob"
       (Some "Icandidate:1 1 UDP...|0|audio")] /\
  @CO_GetAndProcessFromServer_resumed Sample.json Sample.bob
     (Sample.ok "Icandidate:1 1 UDP...|0|audio") =
    ([DebugLog "Received SDP message: type=Ice data=candidate:1 1 UDP...|0|audio";
      AddIceCandidate "candidate:1 1 UDP..." 0 "audio"],
     Returned (set_lastGetComplete Sample.bob true)).
Proof.
  pose proof (@X14_candidate_reaches_remote_peer Sample.json Sample.alice Sample.bob
                "candidate:1 1 UDP..." 0 "audio"
                (Sample.ok "Icandidate:1 1 UDP...|0|audio")
                eq_refl eq_refl eq_refl eq_refl eq_refl eq_refl eq_refl eq_refl
                eq_refl eq_refl eq_refl)
    as (Hpost & _ & Hresumed).
  split; [exact Hpost | exact Hresumed].
Defined.

(** ** The configuration *)

(** X15. No event of a session, tick, completion or publish, with or
    without an exception, writes the configuration of the signaler: the
    logging switch, the two peer identifiers, the server address and the poll
    interval are at the end of every run what they were at its start. *)
Theorem X15_configuration_is_kept `{JsonUtility} (evs : list Event) (w : Session) :
  AutoLogErrors (signaler (run w evs)) = AutoLogErrors (signaler w) /\
  LocalPeerId (signaler (run w evs)) = LocalPeerId (signaler w) /\
  RemotePeerId (signaler (run w evs)) = RemotePeerId (signaler w) /\
  HttpServerAddress (signaler (run w evs)) = HttpServerAddress (signaler w) /\
  PollTimeMs (signaler (run w evs)) = PollTimeMs (signaler w).
Proof.
  destruct (run_configuration evs w) as (Hlog & Hlocal & Hremote & Haddress & Hpoll).
  repeat split; symmetry; assumption.
Qed.
